(** * Request admission in the portfolio micro-services gateway

    A shallow embedding of the JavaScript sources that admit a request:

    - [backend/<service>/src/middleware/auth.middleware.js] with its own
      JWKS cache ([fetchJwks], [getPublicKey], [verifyToken],
      [authenticate], [hasRole], [hasPermission]);
    - [backend/api-gateway/src/middleware/auth.middleware.js], the
      gateway's variant of the same middleware on top of a JWKS client;
    - [backend/api-gateway/src/middleware/rate-limiter.middleware.js]
      ([createRateLimiter] and the three limiters);
    - [backend/api-gateway/src/config/gateway.config.js] and
      [config/routes.js];
    - [backend/api-gateway/src/server.js], the Express application and
      the middleware chain it registers for every route.

    Asynchronous functions are written in a small state-and-exception
    monad: the state is the module-level mutable data of the source,
    [throw] and [try ... catch] are the monad's errors. *)

From Stdlib Require Import ZArith String Ascii List Bool Lia.
From stdpp Require Import base option list gmap strings pretty.
Import ListNotations.

Set Implicit Arguments.
Unset Strict Implicit.

(** ** JavaScript values used by the sources *)

Module Js.

(** Truthiness of a string: only the empty string is falsy. *)
Definition truthy_string (s : string) : bool :=
  match s with EmptyString => false | String _ _ => true end.

(** Truthiness of [s] where [s] is a string or [undefined]/[null]. *)
Definition truthy (o : option string) : bool :=
  match o with Some s => truthy_string s | None => false end.

(** Truthiness of a number or [null]: [0] is falsy. *)
Definition truthy_num (o : option Z) : bool :=
  match o with Some n => negb (Z.eqb n 0) | None => false end.

(** [a || b] on possibly missing strings. *)
Definition or_else (a : option string) (b : option string) : option string :=
  if truthy a then a else b.

(** [a || d] with a string default. *)
Definition or_default (a : option string) (d : string) : string :=
  match a with
  | Some s => if truthy_string s then s else d
  | None => d
  end.

(** [a || []] where [a] is an array or missing (arrays are truthy). *)
Definition or_empty (a : option (list string)) : list string :=
  match a with Some l => l | None => [] end.

(** [s.startsWith(p)] *)
Fixpoint startsWith (p s : string) : bool :=
  match p, s with
  | EmptyString, _ => true
  | String a p', String b s' => Ascii.eqb a b && startsWith p' s'
  | String _ _, EmptyString => false
  end.

(** [s.substring(n)] for [n] within the string or beyond it *)
Fixpoint substring_from (n : nat) (s : string) : string :=
  match n, s with
  | O, _ => s
  | S n', String _ s' => substring_from n' s'
  | S _, EmptyString => EmptyString
  end.

(** [s.includes(sub)] on strings *)
Fixpoint includes (sub s : string) : bool :=
  startsWith sub s ||
  match s with
  | EmptyString => false
  | String _ s' => includes sub s'
  end.

(** [arr.includes(x)] on arrays of strings *)
Definition arr_includes (x : string) (arr : list string) : bool :=
  existsb (String.eqb x) arr.

(** [arr.some(p)] and [arr.every(p)] *)
Definition some {A} (p : A -> bool) (arr : list A) : bool := existsb p arr.
Definition every {A} (p : A -> bool) (arr : list A) : bool := forallb p arr.

(** [arr.find(p)] *)
Fixpoint find {A} (p : A -> bool) (arr : list A) : option A :=
  match arr with
  | [] => None
  | x :: rest => if p x then Some x else find p rest
  end.

(** [s.toLowerCase()] on ASCII letters, used to compare header names
    and path segments the way HTTP and Express do. *)
Definition lower_ascii (c : ascii) : ascii :=
  let n := nat_of_ascii c in
  if (Nat.leb 65 n && Nat.leb n 90)%bool then ascii_of_nat (n + 32) else c.

Fixpoint toLowerCase (s : string) : string :=
  match s with
  | EmptyString => EmptyString
  | String c s' => String (lower_ascii c) (toLowerCase s')
  end.

Definition eq_nocase (a b : string) : bool :=
  String.eqb (toLowerCase a) (toLowerCase b).

End Js.

(** ** Asynchronous code with module state and exceptions

    [M R S A] is a computation that reads an ambient [R] (the clock, the
    environment, what the network answers), threads the module state [S]
    and either returns an [A] or throws [Error(message)]. *)

Module Eff.

Inductive outcome (A : Type) : Type :=
| Ok (a : A)
| Thrown (message : string).
Arguments Ok {A} a.
Arguments Thrown {A} message.

Definition M (R S A : Type) : Type := R -> S -> outcome A * S.

Section Ops.
Context {R S : Type}.

Definition ret {A} (a : A) : M R S A := fun _ s => (Ok a, s).

Definition throw {A} (message : string) : M R S A :=
  fun _ s => (Thrown message, s).

Definition bind {A B} (m : M R S A) (k : A -> M R S B) : M R S B :=
  fun r s =>
    match m r s with
    | (Ok a, s') => k a r s'
    | (Thrown e, s') => (Thrown e, s')
    end.

(** [try { m } catch (error) { h error.message }] *)
Definition try_catch {A} (m : M R S A) (h : string -> M R S A) : M R S A :=
  fun r s =>
    match m r s with
    | (Ok a, s') => (Ok a, s')
    | (Thrown e, s') => h e r s'
    end.

Definition ask : M R S R := fun r s => (Ok r, s).
Definition get : M R S S := fun _ s => (Ok s, s).
Definition put (s : S) : M R S unit := fun _ _ => (Ok tt, s).
End Ops.

Definition is_ok {A} (o : outcome A) : bool :=
  match o with Ok _ => true | Thrown _ => false end.

End Eff.

Import Eff.

Declare Scope eff_scope.
Delimit Scope eff_scope with eff.
Notation "'let!' x ':=' m 'in' k" := (Eff.bind m (fun x => k))
  (at level 10, x name, m at level 100, k at level 200) : eff_scope.
Notation "'run!' m 'in' k" := (Eff.bind m (fun _ => k))
  (at level 10, m at level 100, k at level 200) : eff_scope.

(** ** HTTP responses *)

Module Http.

(** Modelled from the spec: the status constants of
    [shared/utils/http-status], whose file is not among the sources;
    the error table of the specification gives 401, 403 and 429. *)
Definition OK : Z := 200.
Definition UNAUTHORIZED : Z := 401.
Definition FORBIDDEN : Z := 403.
Definition TOO_MANY_REQUESTS : Z := 429.

(** Bodies the gateway and the middleware produce. [ErrorBody] is the
    value of [formatError(message, details)]. *)
Inductive body : Type :=
| ErrorBody (message details : string)
| NotFoundBody (error message : string) (code : Z)
| HealthBody (status service : string)
| MetricsBody
| UpstreamBody (payload : string).

Record response : Type := Response { status : Z; payload : body }.

(** Modelled from the spec: [formatError] of
    [shared/utils/response-formatter], whose file is not among the
    sources; the specification only says that client-facing errors
    are structured JSON with a kind and a message, so the two
    arguments are kept as they are passed. *)
Definition formatError (message details : string) : body :=
  ErrorBody message details.

(** [res.status(code).json(b)] *)
Definition json (code : Z) (b : body) : response := Response code b.

End Http.

(** ** The [jsonwebtoken] calls of the sources

    [jwt.decode] and [jwt.verify] belong to the [jsonwebtoken] package.
    The compact serialisation and the RSA arithmetic stay abstract: the
    package's decoder and its RS256 signature check are parameters.
    What [jwt.verify] does with the options the sources pass (allowed
    algorithms, issuer, audience) and with the expiry claim is written
    out. *)

Module Jwt.

Record header : Type := Header { alg : string; kid : option string }.

(** The claims the sources read. The issuer of the tokens
    ([generateTokens] in the auth service) writes [sub], [email],
    [roles] and [permissions], the last two as arrays of strings. *)
Record claims : Type := Claims {
  sub : string;
  email : option string;
  name : option string;
  roles : option (list string);
  permissions : option (list string);
  iss : option string;
  aud : option string;
  exp : option Z   (* seconds since the epoch *)
}.

Record decoded : Type := Decoded { hdr : header; payload : claims }.

Record verifyOptions : Type := VerifyOptions {
  algorithms : list string;
  issuer : string;
  audience : string
}.

Section Library.
(** [jwt.decode(token, { complete: true })]: [None] is [null]. *)
Variable decode : string -> option decoded.
(** The RS256 check of a token against key material in PEM form. *)
Variable rs256 : string -> string -> bool.

Local Open Scope Z_scope.

(** Modelled from the spec: [jwt.verify(token, key, options)] of the
    [jsonwebtoken] package at clock [now] (milliseconds), as the token
    verifier is specified: the algorithm must be on the allow-list, the
    signature must verify against the key, the expiry must lie ahead
    (the clock in whole seconds), audience and issuer must be the
    expected ones; the result is the payload. The checks come in the
    package's order and throw the package's messages. *)
Definition verify (now : Z) (token key : string) (o : verifyOptions)
  : outcome claims :=
  match decode token with
  | None => Thrown "jwt malformed"
  | Some d =>
      if negb (Js.arr_includes (alg (hdr d)) (algorithms o))
      then Thrown "invalid algorithm"
      else if negb (rs256 key token)
      then Thrown "invalid signature"
      else if match exp (payload d) with
              | Some e => e <=? now / 1000
              | None => false
              end
      then Thrown "jwt expired"
      else if negb (match aud (payload d) with
                    | Some a => String.eqb a (audience o)
                    | None => false
                    end)
      then Thrown ("jwt audience invalid. expected: " ++ audience o)
      else if negb (match iss (payload d) with
                    | Some i => String.eqb i (issuer o)
                    | None => false
                    end)
      then Thrown ("jwt issuer invalid. expected: " ++ issuer o)
      else Ok (payload d)
  end.
End Library.

End Jwt.

(** ** Requests as the middleware sees them *)

Module Req.

(** [req.user] as [authenticate] builds it. The gateway's variant has
    no [name] field; it is [None] there. *)
Record identity : Type := Identity {
  id : string;
  email : option string;
  name : option string;
  roles : list string;
  permissions : list string
}.

(** The request after Express' body, cookie and query parsers and the
    [requestId] middleware have run: [reqId] is [req.id]. [user] is
    [None] both for [undefined] and for [null]. *)
Record request : Type := Request {
  method : string;
  path : string;
  originalUrl : string;
  ip : string;
  reqId : string;
  authorization : option string;           (* req.headers.authorization *)
  cookies : option (list (string * string)); (* req.cookies *)
  queryToken : option string;              (* req.query.token *)
  user : option identity;
  targetService : option (string * string)
}.

Definition set_user (u : option identity) (r : request) : request :=
  Request (method r) (path r) (originalUrl r) (ip r) (reqId r)
          (authorization r) (cookies r) (queryToken r) u (targetService r).

Definition set_targetService (t : string * string) (r : request) : request :=
  Request (method r) (path r) (originalUrl r) (ip r) (reqId r)
          (authorization r) (cookies r) (queryToken r) (user r) (Some t).

(** [req.cookies[name]] *)
Fixpoint cookie (name : string) (cs : list (string * string)) : option string :=
  match cs with
  | [] => None
  | (k, v) :: rest => if String.eqb k name then Some v else cookie name rest
  end.

(** [extractToken(req)] with the cookie name of the module: the
    [Authorization] header first, then the cookie, then the query
    parameter. [None] is [null]; the [Bearer] branch returns whatever
    follows the prefix, possibly the empty string. *)
Definition extractToken (cookieName : string) (r : request) : option string :=
  if match authorization r with
     | Some h => (Js.truthy_string h && Js.startsWith "Bearer " h)%bool
     | None => false
     end
  then option_map (Js.substring_from 7) (authorization r)
  else if match cookies r with
          | Some cs => Js.truthy (cookie cookieName cs)
          | None => false
          end
  then match cookies r with Some cs => cookie cookieName cs | None => None end
  else if Js.truthy (queryToken r) then queryToken r
  else None.

(** What a middleware does with a request: call [next()] (with the
    request as it mutated it) or end the request with a response. *)
Inductive step : Type :=
| Next (r : request)
| Respond (res : Http.response).

End Req.

(** ** A backend service's [auth.middleware.js]: the JWKS cache

    The module-level variables [jwksCache] and [jwksCacheTime] are the
    state; [fetched] records every [axios.get] the module performs, in
    order, so that the number of calls to the issuer can be counted. *)

Module ServiceAuth.

Local Open Scope Z_scope.

(** One published key, [{ kid, kty, n, e, alg }], and the key set. *)
Record jwk : Type := Jwk { kid : string; kty : string; n : string; e : string; alg : string }.
Record jwks : Type := Jwks { keys : list jwk }.

Record state : Type := State {
  jwksCache : option jwks;
  jwksCacheTime : option Z;
  fetched : list string
}.

(** What the module reads from outside: [Date.now()], [process.env]
    and the answer of the issuer to a GET ([None]: the call throws). *)
Record world : Type := World {
  now : Z;
  env : gmap string string;
  axios_get : string -> option jwks
}.

Definition JWKS_CACHE_TTL : Z := 3600000.

Definition nl : string := String (ascii_of_nat 10) EmptyString.

(** [await axios.get(url)], returning [response.data] *)
Definition http_get (url : string) : M world state jwks :=
  fun w s =>
    let s' := State (jwksCache s) (jwksCacheTime s) (fetched s ++ [url]) in
    match axios_get w url with
    | Some data => (Ok data, s')
    | None => (Thrown "Network Error", s')
    end.

(** The test [jwksCache && jwksCacheTime && (now - jwksCacheTime <
    JWKS_CACHE_TTL)]; when it holds the cached key set is returned. *)
Definition live_cache (w : world) (s : state) : option jwks :=
  match jwksCache s, jwksCacheTime s with
  | Some cached, Some t =>
      if (Js.truthy_num (Some t) && (now w - t <? JWKS_CACHE_TTL))%bool
      then Some cached else None
  | _, _ => None
  end.

Definition fetchJwks : M world state jwks :=
  try_catch
    (let! w := ask in
     let! s := get in
     match live_cache w s with
     | Some cached => ret cached
     | None =>
         let authServiceUrl :=
           Js.or_default (env w !! "AUTH_SERVICE_URL") "http://auth-service:3001" in
         let! data := http_get (authServiceUrl ++ "/.well-known/jwks.json") in
         let! s1 := get in
         run! put (State (Some data) (Some (now w)) (fetched s1)) in
         ret data
     end)%eff
    (fun _ => throw "Unable to fetch JWKS").

(** The key of id [k] in the cached key set, whatever its age. *)
Definition cached_key (s : state) (k : string) : option jwk :=
  match jwksCache s with
  | Some set => Js.find (fun key => String.eqb (kid key) k) (keys set)
  | None => None
  end.

(** The address [fetchJwks] asks for the key set. *)
Definition jwksUrl (w : world) : string :=
  (Js.or_default (env w !! "AUTH_SERVICE_URL") "http://auth-service:3001"
     ++ "/.well-known/jwks.json")%string.

(** The key set the cache holds when a key is looked up in it, and the
    state of the module then: the cached key set while it is within
    its time to live; otherwise the key set the issuer answers with,
    which replaces it. [None] when the cache had to be refreshed and
    the issuer did not answer. *)
Definition current_key_set (w : world) (s : state) : option (jwks * state) :=
  match live_cache w s with
  | Some cached => Some (cached, s)
  | None =>
      match axios_get w (jwksUrl w) with
      | Some data =>
          Some (data, State (Some data) (Some (now w)) (fetched s ++ [jwksUrl w]))
      | None => None
      end
  end.

(** The "simplified" conversion of the source: the modulus between
    the two PEM marker lines. *)
Definition pem_of (key : jwk) : string :=
  ("-----BEGIN PUBLIC KEY-----" ++ nl ++ n key ++ nl ++ "-----END PUBLIC KEY-----")%string.

Definition getPublicKey (k : string) : M world state string :=
  try_catch
    (let! set := fetchJwks in
     match Js.find (fun key => String.eqb (kid key) k) (keys set) with
     | None => throw "No matching key found in JWKS"
     | Some key => ret (pem_of key)
     end)%eff
    (fun _ => throw "Unable to retrieve public key for token verification").

Section WithJwtLibrary.
Variable decode : string -> option Jwt.decoded.
Variable rs256 : string -> string -> bool.

Definition verifyOptions (w : world) : Jwt.verifyOptions :=
  Jwt.VerifyOptions ["RS256"]
    (Js.or_default (env w !! "TOKEN_ISSUER") "portfolio-api")
    (Js.or_default (env w !! "TOKEN_AUDIENCE") "portfolio-client").

Definition verifyToken (token : string) : M world state Jwt.claims :=
  try_catch
    (match decode token with
     | None => throw "Invalid token format"
     | Some d =>
         match Jwt.kid (Jwt.hdr d) with
         | Some k =>
             if Js.truthy_string k then
               let! publicKey := getPublicKey k in
               let! w := ask in
               fun _ s => (Jwt.verify decode rs256 (now w) token publicKey
                                      (verifyOptions w), s)
             else throw "Invalid token format"
         | None => throw "Invalid token format"
         end
     end)%eff
    (fun _ => throw "Invalid token").

(** The object assigned to [req.user]. *)
Definition identity_of (c : Jwt.claims) : Req.identity :=
  Req.Identity (Jwt.sub c) (Jwt.email c)
               (Js.or_else (Jwt.name c) (Jwt.email c))
               (Js.or_empty (Jwt.roles c))
               (Js.or_empty (Jwt.permissions c)).

Definition authenticate (required : bool) (req : Req.request)
  : M world state Req.step :=
  try_catch
    (let token := Req.extractToken "accessToken" req in
     if (negb (Js.truthy token) && required)%bool then
       ret (Req.Respond (Http.json Http.UNAUTHORIZED
              (Http.formatError "Authentication required" "No token provided")))
     else if (negb (Js.truthy token) && negb required)%bool then
       ret (Req.Next (Req.set_user None req))
     else
       let! c := verifyToken (default EmptyString token) in
       ret (Req.Next (Req.set_user (Some (identity_of c)) req)))%eff
    (fun message =>
       if required then
         ret (Req.Respond (Http.json Http.UNAUTHORIZED
                (Http.formatError "Authentication failed" message)))
       else ret (Req.Next (Req.set_user None req))).
End WithJwtLibrary.

End ServiceAuth.

(** ** Role and permission guards

    [hasRole] and [hasPermission] have the same text in the service
    middleware and in the gateway's middleware. *)

Module Authz.

(** The argument [string|string[]] of both guards. *)
Inductive requirement : Type :=
| One (r : string)
| Many (rs : list string).

(** [Array.isArray(x) ? x : [x]] *)
Definition as_array (x : requirement) : list string :=
  match x with One r => [r] | Many rs => rs end.

Definition hasRole (roles : requirement) (req : Req.request) : Req.step :=
  let requiredRoles := as_array roles in
  match Req.user req with
  | None =>
      Req.Respond (Http.json Http.UNAUTHORIZED
        (Http.formatError "Authentication required" "User not authenticated"))
  | Some u =>
      let hasRequiredRole :=
        Js.some (fun role => Js.arr_includes role (Req.roles u)) requiredRoles in
      if negb hasRequiredRole then
        Req.Respond (Http.json Http.FORBIDDEN
          (Http.formatError "Access denied" "Insufficient permissions"))
      else Req.Next req
  end.

Definition hasPermission (permissions : requirement) (req : Req.request) : Req.step :=
  let requiredPermissions := as_array permissions in
  match Req.user req with
  | None =>
      Req.Respond (Http.json Http.UNAUTHORIZED
        (Http.formatError "Authentication required" "User not authenticated"))
  | Some u =>
      let hasRequiredPermissions :=
        Js.every (fun permission => Js.arr_includes permission (Req.permissions u))
                 requiredPermissions in
      if negb hasRequiredPermissions then
        Req.Respond (Http.json Http.FORBIDDEN
          (Http.formatError "Access denied" "Insufficient permissions"))
      else Req.Next req
  end.

End Authz.

(** ** [JSON.stringify] on an array of strings

    The quoting is ECMAScript's [QuoteJSONString] on the bytes of the
    string: the two-character escapes, [\u00xx] for the other control
    characters, every other byte as it is. [parse] reads that format
    back; it is the inverse a receiver of the header applies. *)

Module Json.

Definition hex_digit (d : nat) : ascii :=
  ascii_of_nat (if Nat.ltb d 10 then 48 + d else 87 + d).

Definition quote_char (c : ascii) : string :=
  let k := nat_of_ascii c in
  if Nat.eqb k 8 then "\b"
  else if Nat.eqb k 9 then "\t"
  else if Nat.eqb k 10 then "\n"
  else if Nat.eqb k 12 then "\f"
  else if Nat.eqb k 13 then "\r"
  else if Nat.eqb k 34 then String "\" (String c EmptyString)
  else if Nat.eqb k 92 then "\\"
  else if Nat.ltb k 32 then
    String "\" (String "u" (String "0" (String "0"
      (String (hex_digit (Nat.div k 16))
      (String (hex_digit (Nat.modulo k 16)) EmptyString)))))
  else String c EmptyString.

Fixpoint quote_body (s : string) : string :=
  match s with
  | EmptyString => EmptyString
  | String c s' => (quote_char c ++ quote_body s')%string
  end.

Definition dquote : ascii := ascii_of_nat 34.

Definition quote (s : string) : string :=
  String dquote (quote_body s ++ String dquote EmptyString)%string.

Fixpoint join (sep : string) (parts : list string) : string :=
  match parts with
  | [] => EmptyString
  | [x] => x
  | x :: rest => (x ++ sep ++ join sep rest)%string
  end.

(** [JSON.stringify(arr)] for an array of strings *)
Definition stringify (arr : list string) : string :=
  ("[" ++ join "," (map quote arr) ++ "]")%string.





End Json.

(** ** The gateway: configuration *)

Module GatewayConfig.

Local Open Scope Z_scope.

(** The options of a limiter that the sources set or read. *)
Record rateLimiterOptions : Type := RateLimiterOptions {
  windowMs : Z;
  max : Z;
  message : option string;
  standardHeaders : bool;
  legacyHeaders : bool
}.

(** [config.server.rateLimiter] *)
Definition server_rateLimiter : rateLimiterOptions :=
  RateLimiterOptions (15 * 60 * 1000) 100 None true false.

(** [config.proxy] *)
Definition proxy_timeout : Z := 10000.
Definition proxy_proxyTimeout : Z := 10000.
Definition proxy_changeOrigin : bool := true.

(** [config.auth] under the environment [env] *)
Definition auth_jwksUri (env : gmap string string) : string :=
  Js.or_default (env !! "JWKS_URI") "http://auth-service:3001/.well-known/jwks.json".
Definition auth_issuer (env : gmap string string) : string :=
  Js.or_default (env !! "TOKEN_ISSUER") "portfolio-api".
Definition auth_audience (env : gmap string string) : string :=
  Js.or_default (env !! "TOKEN_AUDIENCE") "portfolio-client".
Definition auth_algorithms : list string := ["RS256"].
Definition auth_tokenCookieName : string := "access_token".

End GatewayConfig.

(** ** The gateway: [rate-limiter.middleware.js]

    [createRateLimiter], its [handler] and the three limiters are the
    source's. [rateLimit] itself is the [express-rate-limit] package;
    its counting is written out below for the package's memory store.
    The key of a request is its [ip], the package's default. *)

Module RateLimiter.

Import GatewayConfig.
Local Open Scope Z_scope.

(** The argument of [createRateLimiter]: the options it overrides. *)
Record overrides : Type := Overrides {
  o_windowMs : option Z;
  o_max : option Z;
  o_message : option string
}.

Definition no_overrides : overrides := Overrides None None None.

(** [{ ...defaultOptions, ...options }] *)
Definition spread (d : rateLimiterOptions) (o : overrides) : rateLimiterOptions :=
  RateLimiterOptions
    (default (windowMs d) (o_windowMs o))
    (default (max d) (o_max o))
    (match o_message o with Some m => Some m | None => message d end)
    (standardHeaders d)
    (legacyHeaders d).

(** [Math.ceil(x / 1000 / 60)] on an integer number of milliseconds *)
Definition ceil_minutes (ms : Z) : Z := - ((- ms) / 60000).

(** The [handler] option: the response of a limited request. *)
Definition handler (options : rateLimiterOptions) : Http.response :=
  Http.json Http.TOO_MANY_REQUESTS
    (Http.formatError "Too many requests"
       ("Please try again after " ++ pretty (ceil_minutes (windowMs options))
          ++ " minutes")%string).

(** [createRateLimiter] and the three limiters, given the value of
    [config.server.rateLimiter] the module was loaded with. *)
Section WithConfig.
Variable defaultOptions : rateLimiterOptions.

Definition createRateLimiter (options : overrides) : rateLimiterOptions :=
  spread defaultOptions options.

Definition standardLimiter : rateLimiterOptions :=
  createRateLimiter no_overrides.

Definition strictLimiter : rateLimiterOptions :=
  createRateLimiter
    (Overrides (Some (60 * 60 * 1000)) (Some 20)
               (Some "Too many attempts, please try again later"%string)).

Definition publicLimiter : rateLimiterOptions :=
  createRateLimiter (Overrides (Some (15 * 60 * 1000)) (Some 300) None).
End WithConfig.

(** One counter of the store. *)
Record window : Type := Window { hits : Z; resetTime : Z }.

(** When the window that contains an instant ends is the store's
    matter. The package's memory store and the Redis store end it
    [windowMs] after the hit that opened it; a store aligned to the
    wall clock ends it at the next multiple of [windowMs]. *)
Definition from_first_hit (now windowMs : Z) : Z := now + windowMs.
Definition wall_clock (now windowMs : Z) : Z := (now / windowMs + 1) * windowMs.

Section WithStore.
(** [window_end now windowMs]: the end of the window opened at [now]. *)
Variable window_end : Z -> Z -> Z.

(** Modelled from the spec: the counter of [rateLimit], which belongs
    to the [express-rate-limit] package and is not among the sources.
    Fixed-window counting per client key: the store keeps, per key, a
    hit count and the time the window ends; a request inside the
    window of its key increments the count, a request outside it
    starts a new window with count 1. *)
Definition increment (o : rateLimiterOptions) (now : Z) (key : string)
           (store : gmap string window) : window :=
  match store !! key with
  | Some w =>
      if now <? resetTime w then Window (hits w + 1) (resetTime w)
      else Window 1 (window_end now (windowMs o))
  | None => Window 1 (window_end now (windowMs o))
  end.

(** Modelled from the spec: the middleware [rateLimit(options)] of the
    same package on one request. Every request increments the counter
    of its key; when the count after the increment exceeds [max] the
    request is rejected with the [handler] of the options, and it
    still counts against the limit. *)
Definition rateLimit (o : rateLimiterOptions) (now : Z) (req : Req.request)
           (store : gmap string window) : Req.step * gmap string window :=
  let w := increment o now (Req.ip req) store in
  let store' := <[Req.ip req := w]> store in
  if max o <? hits w then (Req.Respond (handler o), store')
  else (Req.Next req, store').

(** A client's requests at the given instants, one after the other;
    the answers in order and the store at the end. *)
Fixpoint serve (o : rateLimiterOptions) (req : Req.request) (instants : list Z)
         (store : gmap string window) : list Req.step * gmap string window :=
  match instants with
  | [] => ([], store)
  | t :: rest =>
      let '(a, store1) := rateLimit o t req store in
      let '(answers, store2) := serve o req rest store1 in
      (a :: answers, store2)
  end.
End WithStore.

End RateLimiter.

(** ** The gateway: state, ambient world, [auth.middleware.js] and
    [server.js] *)

Module Gateway.

Local Open Scope Z_scope.

(** The request the proxy sends to a backend: where it goes and the
    headers [onProxyReq] writes on it with [setHeader], in order. The
    proxy package copies method, body and client headers itself. *)
Record outbound : Type := Outbound {
  ob_target : string;
  ob_method : string;
  ob_url : string;
  ob_headers : list (string * string)
}.

(** The mutable data of the process: the memory store of each of the
    three limiters and, as a record of effects, every request sent to
    a backend so far. *)
Record state : Type := State {
  standardStore : gmap string RateLimiter.window;
  strictStore : gmap string RateLimiter.window;
  publicStore : gmap string RateLimiter.window;
  forwarded : list outbound
}.

(** What the process reads from outside: the clock, the environment,
    the answer of the JWKS client for a key id ([None]: it throws),
    when the limiters' store ends a window, the answer of a backend to
    a forwarded request ([None]: no answer) and the response the proxy
    package produces then. *)
Record world : Type := World {
  now : Z;
  env : gmap string string;
  jwksClient_getSigningKey : string -> option string;
  window_end : Z -> Z -> Z;
  backend : outbound -> option (Z * string);
  proxy_failure : Http.response
}.

(** *** [config/routes.js] *)

Record route : Type := Route { path : string; method : string; auth : bool }.

Record service : Type := Service {
  prefix : string;
  target : string;
  routes_of : list route
}.

Definition routes (env : gmap string string) : list (string * service) :=
  [ ("auth"%string,
     Service "/api/auth"
       (Js.or_default (env !! "AUTH_SERVICE_URL") "http://auth-service:3001")
       [ Route "/login" "POST" false;
         Route "/register" "POST" false;
         Route "/refresh-token" "POST" false;
         Route "/logout" "POST" true;
         Route "/verify-email/:token" "GET" false;
         Route "/forgot-password" "POST" false;
         Route "/reset-password/:token" "POST" false ]);
    ("profile"%string,
     Service "/api/profiles"
       (Js.or_default (env !! "PROFILE_SERVICE_URL") "http://profile-service:3002")
       [ Route "" "GET" false;
         Route "/:id" "GET" false;
         Route "/me" "GET" true;
         Route "/me" "PUT" true;
         Route "/me/skills" "POST" true;
         Route "/me/skills/:id" "PUT" true;
         Route "/me/skills/:id" "DELETE" true;
         Route "/me/experience" "POST" true;
         Route "/me/experience/:id" "PUT" true;
         Route "/me/experience/:id" "DELETE" true ]);
    ("projects"%string,
     Service "/api/projects"
       (Js.or_default (env !! "PROJECTS_SERVICE_URL") "http://projects-service:3003")
       [ Route "" "GET" false;
         Route "/:id" "GET" false;
         Route "" "POST" true;
         Route "/:id" "PUT" true;
         Route "/:id" "DELETE" true;
         Route "/:id/technologies" "POST" true;
         Route "/:id/technologies/:techId" "DELETE" true ]);
    ("blog"%string,
     Service "/api/blog"
       (Js.or_default (env !! "BLOG_SERVICE_URL") "http://blog-service:3004")
       [ Route "/articles" "GET" false;
         Route "/articles/:id" "GET" false;
         Route "/articles" "POST" true;
         Route "/articles/:id" "PUT" true;
         Route "/articles/:id" "DELETE" true;
         Route "/categories" "GET" false;
         Route "/categories" "POST" true;
         Route "/categories/:id" "PUT" true;
         Route "/categories/:id" "DELETE" true;
         Route "/articles/:id/comments" "GET" false;
         Route "/articles/:id/comments" "POST" true;
         Route "/comments/:id" "PUT" true;
         Route "/comments/:id" "DELETE" true ]);
    ("contact"%string,
     Service "/api/contact"
       (Js.or_default (env !! "CONTACT_SERVICE_URL") "http://contact-service:3005")
       [ Route "/messages" "POST" false;
         Route "/messages" "GET" true;
         Route "/messages/:id" "GET" true;
         Route "/messages/:id" "PUT" true;
         Route "/messages/:id" "DELETE" true ]);
    ("analytics"%string,
     Service "/api/analytics"
       (Js.or_default (env !! "ANALYTICS_SERVICE_URL") "http://analytics-service:3006")
       [ Route "/metrics" "GET" true;
         Route "/visitors" "GET" true;
         Route "/pageviews" "GET" true;
         Route "/track" "POST" false ]) ].

(** *** The middleware values of the gateway *)

Inductive limiter : Type := standardLimiter | strictLimiter | publicLimiter.

Definition limiter_options (l : limiter) : GatewayConfig.rateLimiterOptions :=
  match l with
  | standardLimiter => RateLimiter.standardLimiter GatewayConfig.server_rateLimiter
  | strictLimiter => RateLimiter.strictLimiter GatewayConfig.server_rateLimiter
  | publicLimiter => RateLimiter.publicLimiter GatewayConfig.server_rateLimiter
  end.

(** The functions an Express layer of this application can hold:
    the three limiters, [authenticate(required)], the two guards the
    middleware module exports, the inline function that records the
    target service, the proxy created for a target, and the handlers
    of [/health], of the fallback and of [/metrics]. *)
Inductive middleware : Type :=
| Limit (l : limiter)
| Authenticate (required : bool)
| HasRole (roles : Authz.requirement)
| HasPermission (permissions : Authz.requirement)
| TargetInfo (name url : string)
| Proxy (target : string)
| Health
| Fallback
| Metrics.

(** [onProxyReq]: the [setHeader] calls on the outgoing request. *)
Definition onProxyReq (req : Req.request) : list (string * string) :=
  (match Req.user req with
   | Some u =>
       [ ("X-User-ID"%string, Req.id u);
         ("X-User-Roles"%string, Json.stringify (Req.roles u)) ]
   | None => []
   end)
  ++ [ ("X-Request-ID"%string, Req.reqId req) ].

(** The value of a header of the outgoing request; header names are
    compared without regard to case, a later [setHeader] replaces an
    earlier one. *)
Fixpoint header (name : string) (hs : list (string * string)) : option string :=
  match hs with
  | [] => None
  | (k, v) :: rest =>
      match header name rest with
      | Some later => Some later
      | None => if Js.eq_nocase k name then Some v else None
      end
  end.

Section WithJwtLibrary.
Variable decode : string -> option Jwt.decoded.
Variable rs256 : string -> string -> bool.

(** *** [auth.middleware.js] of the gateway *)

Definition getSigningKey (k : string) : M world state string :=
  try_catch
    (fun w s =>
       match jwksClient_getSigningKey w k with
       | Some publicKey => (Ok publicKey, s)
       | None => (Thrown "SigningKeyNotFoundError", s)
       end)
    (fun _ => throw "Unable to retrieve signing key").

Definition verifyToken (token : string) : M world state Jwt.claims :=
  try_catch
    (match decode token with
     | None => throw "Invalid token format"
     | Some d =>
         match Jwt.kid (Jwt.hdr d) with
         | Some k =>
             if Js.truthy_string k then
               let! signingKey := getSigningKey k in
               let! w := ask in
               fun _ s =>
                 (Jwt.verify decode rs256 (now w) token signingKey
                    (Jwt.VerifyOptions GatewayConfig.auth_algorithms
                       (GatewayConfig.auth_issuer (env w))
                       (GatewayConfig.auth_audience (env w))), s)
             else throw "Invalid token format"
         | None => throw "Invalid token format"
         end
     end)%eff
    (fun message => throw (Js.or_default (Some message) "Invalid token")).

(** The object assigned to [req.user]; the gateway sets no [name]. *)
Definition identity_of (c : Jwt.claims) : Req.identity :=
  Req.Identity (Jwt.sub c) (Jwt.email c) None
               (Js.or_empty (Jwt.roles c))
               (Js.or_empty (Jwt.permissions c)).

Definition authenticate (required : bool) (req : Req.request)
  : M world state Req.step :=
  try_catch
    (let token := Req.extractToken GatewayConfig.auth_tokenCookieName req in
     if (negb (Js.truthy token) && required)%bool then
       ret (Req.Respond (Http.json Http.UNAUTHORIZED
              (Http.formatError "Authentication required" "No token provided")))
     else if (negb (Js.truthy token) && negb required)%bool then
       ret (Req.Next (Req.set_user None req))
     else
       let! c := verifyToken (default EmptyString token) in
       ret (Req.Next (Req.set_user (Some (identity_of c)) req)))%eff
    (fun message =>
       if required then
         ret (Req.Respond (Http.json Http.UNAUTHORIZED
                (Http.formatError "Authentication failed" message)))
       else ret (Req.Next (Req.set_user None req))).

(** *** [server.js] *)

(** A limiter on its own store. *)
Definition limit (l : limiter) (req : Req.request) : M world state Req.step :=
  fun w s =>
    match l with
    | standardLimiter =>
        let '(a, st) := RateLimiter.rateLimit (window_end w) (limiter_options l) (now w) req
                          (standardStore s) in
        (Ok a, State st (strictStore s) (publicStore s) (forwarded s))
    | strictLimiter =>
        let '(a, st) := RateLimiter.rateLimit (window_end w) (limiter_options l) (now w) req
                          (strictStore s) in
        (Ok a, State (standardStore s) st (publicStore s) (forwarded s))
    | publicLimiter =>
        let '(a, st) := RateLimiter.rateLimit (window_end w) (limiter_options l) (now w) req
                          (publicStore s) in
        (Ok a, State (standardStore s) (strictStore s) st (forwarded s))
    end.

(** The middleware of [createProxyMiddleware]: one request to the
    target carrying the headers of [onProxyReq]; the backend's
    answer is the response. *)
Definition proxy (tgt : string) (req : Req.request) : M world state Req.step :=
  fun w s =>
    let out := Outbound tgt (Req.method req) (Req.originalUrl req) (onProxyReq req) in
    let s' := State (standardStore s) (strictStore s) (publicStore s)
                    (forwarded s ++ [out]) in
    match backend w out with
    | Some (code, text) =>
        (Ok (Req.Respond (Http.Response code (Http.UpstreamBody text))), s')
    | None => (Ok (Req.Respond (proxy_failure w)), s')
    end.

Definition run (m : middleware) (req : Req.request) : M world state Req.step :=
  match m with
  | Limit l => limit l req
  | Authenticate required => authenticate required req
  | HasRole roles => ret (Authz.hasRole roles req)
  | HasPermission permissions => ret (Authz.hasPermission permissions req)
  | TargetInfo name url => ret (Req.Next (Req.set_targetService (name, url) req))
  | Proxy tgt => proxy tgt req
  | Health =>
      ret (Req.Respond (Http.json Http.OK (Http.HealthBody "ok" "api-gateway")))
  | Fallback =>
      ret (Req.Respond (Http.json 404
             (Http.NotFoundBody "Not Found"
                ("Route " ++ Req.originalUrl req ++ " not found") 404)))
  | Metrics => ret (Req.Respond (Http.json Http.OK Http.MetricsBody))
  end.

(** The handlers of one layer, each run when the one before it
    called [next()]. *)
Fixpoint run_chain (chain : list middleware) (req : Req.request)
  : M world state Req.step :=
  match chain with
  | [] => ret (Req.Next req)
  | m :: rest =>
      (let! a := run m req in
       match a with
       | Req.Next req' => run_chain rest req'
       | Req.Respond res => ret (Req.Respond res)
       end)%eff
  end.
End WithJwtLibrary.

(** The limiter the route loop picks. *)
Definition limiter_for (r : route) (fullPath : string) : limiter :=
  let isAuthRequired := auth r in
  if (String.eqb (method r) "POST" &&
      (Js.includes "/login" fullPath || Js.includes "/register" fullPath))%bool
  then strictLimiter
  else if negb isAuthRequired then publicLimiter
  else standardLimiter.

(** The array of handlers the route loop registers for a route. *)
Definition chain_of (serviceKey : string) (svc : service) (r : route)
  : list middleware :=
  let fullPath := (prefix svc ++ path r)%string in
  let isAuthRequired := auth r in
  [ Limit (limiter_for r fullPath);
    (if isAuthRequired then Authenticate true else Authenticate false);
    TargetInfo serviceKey (target svc);
    Proxy (target svc) ].

(** An entry of the application's stack: [app.METHOD(path, handlers)],
    [app.use(path, handler)] or [app.use(errorHandler)]. *)
Inductive layer : Type :=
| OnMethod (verb pattern : string) (handlers : list middleware)
| Use (pattern : string) (handlers : list middleware)
| UseErrorHandler.

(** The layers of the route loop, in registration order. *)
Definition route_layers (table : list (string * service)) : list layer :=
  flat_map
    (fun '(serviceKey, svc) =>
       map (fun r =>
              OnMethod (Js.toLowerCase (method r)) (prefix svc ++ path r)%string
                       (chain_of serviceKey svc r))
           (routes_of svc))
    table.

(** The stack of the application in the order [server.js] builds it:
    the health check, the fallback, the error handler, [/metrics], and
    then the layers of the route loop, which runs last in the file.
    The middleware mounted before the health check (security headers,
    compression, body and cookie parsers, CORS, request id, logging)
    pass a request on to the stack; what they answer themselves, a
    CORS preflight for one, never reaches it and is not a request of
    this model. *)
Definition app (e : gmap string string) : list layer :=
  [ OnMethod "get" "/health" [Health];
    Use "*" [Fallback];
    UseErrorHandler;
    OnMethod "get" "/metrics" [Metrics] ]
  ++ route_layers (routes e).

End Gateway.

(** ** Express' router, as far as the application relies on it

    [app.METHOD(path, handlers)] and [app.use(path, handler)] add a
    layer to the application's stack; routing a request through the
    stack is Express' and is written out below. *)

Module Router.

Import Gateway.

Definition slash : ascii := ascii_of_nat 47.

(** The pieces of [s] between slashes, [cur] being the piece read so
    far. *)
Fixpoint pieces (s cur : string) : list string :=
  match s with
  | EmptyString => [cur]
  | String c s' =>
      if Ascii.eqb c slash then cur :: pieces s' EmptyString
      else pieces s' (cur ++ String c EmptyString)%string
  end.

Fixpoint drop_last_empty (l : list string) : list string :=
  match l with
  | [] => []
  | [x] => if Js.truthy_string x then [x] else []
  | x :: rest => x :: drop_last_empty rest
  end.

(** The segments of a path or of a pattern that starts with a slash. *)
Definition segments (s : string) : list string :=
  match pieces s EmptyString with
  | x :: rest => if Js.truthy_string x then drop_last_empty (x :: rest)
                 else drop_last_empty rest
  | [] => []
  end.

(** Modelled from the spec: the path patterns of Express, which is not
    among the sources: exact segments plus named parameter segments, no
    wildcard spanning segments. A segment [:name] stands for any
    non-empty segment, any other segment for itself without regard to
    case; a trailing slash is optional. *)
Definition segment_matches (pat seg : string) : bool :=
  if Js.startsWith ":" pat then Js.truthy_string seg
  else Js.eq_nocase pat seg.

Fixpoint segments_match (pats segs : list string) : bool :=
  match pats, segs with
  | [], [] => true
  | p :: pats', s :: segs' => segment_matches p s && segments_match pats' segs'
  | _, _ => false
  end.

Definition path_matches (pattern path : string) : bool :=
  segments_match (segments pattern) (segments path).

Definition verb_matches (verb method : string) : bool :=
  let m := Js.toLowerCase method in
  (String.eqb m verb || (String.eqb verb "get" && String.eqb m "head"))%bool.

(** A layer registered with [app.METHOD] handles the requests of that
    verb ([HEAD] is served by [get] layers) whose path matches its
    pattern; a layer registered with [app.use('*', ...)] handles every
    request; the error handler handles none. *)
Definition layer_matches (l : layer) (req : Req.request) : bool :=
  match l with
  | OnMethod verb pattern _ =>
      (verb_matches verb (Req.method req) && path_matches pattern (Req.path req))%bool
  | Use pattern _ =>
      (String.eqb pattern "*" || path_matches pattern (Req.path req))%bool
  | UseErrorHandler => false
  end.

Definition handlers_of (l : layer) : list middleware :=
  match l with
  | OnMethod _ _ hs => hs
  | Use _ hs => hs
  | UseErrorHandler => []
  end.

(** The first layer of the stack and the two responses the first two
    layers produce. *)
Definition health_layer : layer := OnMethod "get" "/health" [Health].

Definition health_response : Http.response :=
  Http.Response 200 (Http.HealthBody "ok" "api-gateway").

Definition not_found_response (req : Req.request) : Http.response :=
  Http.Response 404
    (Http.NotFoundBody "Not Found" ("Route " ++ Req.originalUrl req ++ " not found") 404).

(** The first rule of the route table that a request matches. *)
Definition matchRoute (table : list (string * service)) (req : Req.request)
  : option layer :=
  Js.find (fun l => layer_matches l req) (route_layers table).

Section WithJwtLibrary.
Variable decode : string -> option Jwt.decoded.
Variable rs256 : string -> string -> bool.

(** Modelled from the spec: the routing of Express on one request:
    the layers are evaluated top to bottom in registration order and
    the first one that matches handles the request; a layer whose
    handlers all call [next()] hands the request on to the layers
    after it. [None] when no layer answered. *)
Fixpoint dispatch (stack : list layer) (req : Req.request)
  : M world state (option Http.response) :=
  match stack with
  | [] => ret None
  | l :: rest =>
      if layer_matches l req then
        (let! a := run_chain decode rs256 (handlers_of l) req in
         match a with
         | Req.Respond res => ret (Some res)
         | Req.Next req' => dispatch rest req'
         end)%eff
      else dispatch rest req
  end.

(** The application on one request. *)
Definition handle (req : Req.request) : M world state (option Http.response) :=
  fun w s => dispatch (app (env w)) req w s.
End WithJwtLibrary.

End Router.

(** ** Concrete tokens, key sets, requests and worlds

    The inputs at which the statements below are evaluated. *)

Module Samples.

Local Open Scope Z_scope.

(** The payload of an access token of user [user-42], issued by
    [portfolio-api] for [portfolio-client], expiring at second 20000. *)
Definition claims1 : Jwt.claims :=
  Jwt.Claims "user-42" (Some "ada@example.org"%string) None
    (Some ["admin"; "user"]%string) (Some ["projects:write"]%string)
    (Some "portfolio-api"%string) (Some "portfolio-client"%string) (Some 20000).

Definition decoded1 : Jwt.decoded :=
  Jwt.Decoded (Jwt.Header "RS256" (Some "1"%string)) claims1.

(** The same payload under key id [2]. *)
Definition decoded2 : Jwt.decoded :=
  Jwt.Decoded (Jwt.Header "RS256" (Some "2"%string)) claims1.

(** A decoder that knows two tokens and a signature check that
    accepts the first of them. *)
Definition decode (token : string) : option Jwt.decoded :=
  if String.eqb token "good.token" then Some decoded1
  else if String.eqb token "other.token" then Some decoded2
  else None.

Definition rs256 (key token : string) : bool := String.eqb token "good.token".

Definition key1 : ServiceAuth.jwk :=
  ServiceAuth.Jwk "1" "RSA" "modulus-1" "AQAB" "RS256".

Definition set1 : ServiceAuth.jwks := ServiceAuth.Jwks [key1].

Definition jwks_url : string := "http://auth-service:3001/.well-known/jwks.json".

(** A service at clock 1000000 ms whose issuer does not answer, with
    the key set [set1] cached at 900000 ms. *)
Definition svc_world : ServiceAuth.world :=
  ServiceAuth.World 1000000 ∅ (fun _ => None).

Definition svc_state : ServiceAuth.state :=
  ServiceAuth.State (Some set1) (Some 900000) [].

(** The same service two hours later, the issuer now answering with
    [set1]: the cached key set has expired. *)
Definition svc_world_late : ServiceAuth.world :=
  ServiceAuth.World 8200000 ∅ (fun _ => Some set1).

(** [GET /api/analytics/metrics] with the first token as bearer. *)
Definition request1 : Req.request :=
  Req.Request "GET" "/api/analytics/metrics" "/api/analytics/metrics"
    "10.0.0.7" "req-1" (Some "Bearer good.token"%string) None None None None.


(** [GET /api/analytics/metrics] from another client, with no token. *)
Definition request_no_token : Req.request :=
  Req.Request "GET" "/api/analytics/metrics" "/api/analytics/metrics"
    "10.0.0.9" "req-5" None None None None None.

(** [GET /health] and a path no route has. *)
Definition request_health : Req.request :=
  Req.Request "GET" "/health" "/health" "10.0.0.7" "req-3" None None None None None.


Definition empty_state : Gateway.state := Gateway.State ∅ ∅ ∅ [].

(** A gateway at clock 1000000 ms, default environment, whose JWKS
    client knows key id [1] and whose backends answer 201. *)
Definition gw_world : Gateway.world :=
  Gateway.World 1000000 ∅
    (fun k => if String.eqb k "1" then Some "PEM-1"%string else None)
    RateLimiter.from_first_hit
    (fun _ => Some (201, "created"%string))
    (Http.Response 504 (Http.ErrorBody "proxy" "no answer")).

Definition identity1 : Req.identity :=
  Req.Identity "user-42" (Some "ada@example.org"%string) None
    ["admin"; "user"]%string ["projects:write"]%string.

End Samples.

(** ** The stages of a middleware chain *)

Module Pipeline.

(** What a middleware value is in the admission pipeline. *)
Inductive stage : Type :=
| RateLimitStage
| AuthenticateStage
| AuthorizeStage
| ForwardStage
| OtherStage.

Definition stage_of (m : Gateway.middleware) : stage :=
  match m with
  | Gateway.Limit _ => RateLimitStage
  | Gateway.Authenticate _ => AuthenticateStage
  | Gateway.HasRole _ | Gateway.HasPermission _ => AuthorizeStage
  | Gateway.Proxy _ => ForwardStage
  | _ => OtherStage
  end.

(** The gates: the stages that may reject a request. *)
Definition is_gate (m : Gateway.middleware) : bool :=
  match stage_of m with
  | RateLimitStage | AuthenticateStage | AuthorizeStage => true
  | ForwardStage | OtherStage => false
  end.

End Pipeline.

(** ** The statements of the specification that the sources do not
    satisfy, as the specification words them *)

Module AsStated.

(** A lookup of a key id that the cached key set does not hold
    fetches exactly once and fails. *)
Definition one_forced_refresh : Prop :=
  forall (w : ServiceAuth.world) (s : ServiceAuth.state) (k : string),
    ServiceAuth.cached_key s k = None ->
    exists url message s',
      ServiceAuth.getPublicKey k w s = (Thrown message, s') /\
      ServiceAuth.fetched s' = ServiceAuth.fetched s ++ [url].

(** Every registered route runs rate-limit, authenticate, authorize
    and forward, in this order. *)
Definition four_gates_in_order (e : gmap string string) : Prop :=
  forall l, In l (Gateway.route_layers (Gateway.routes e)) ->
    sublist [Pipeline.RateLimitStage; Pipeline.AuthenticateStage;
             Pipeline.AuthorizeStage; Pipeline.ForwardStage]
            (map Pipeline.stage_of (Router.handlers_of l)).


End AsStated.

(** ** The gateway: [logger.middleware.js]

    The two pieces of the logger that handle request data: the id of
    the request and the request body as it is written to the log. *)

Module Logger.

Local Open Scope Z_scope.

(** A value of a parsed request body, as far as the logger looks at
    it: a nested object or array is only tested for truthiness and
    copied by reference, so it is kept as its text. *)
Inductive value : Type :=
| VStr (s : string)
| VNum (n : Z)
| VBool (b : bool)
| VNull
| VNested (text : string).

(** Truthiness: the empty string, [0], [false] and [null] are falsy,
    objects and arrays are truthy. *)
Definition truthy (v : value) : bool :=
  match v with
  | VStr s => Js.truthy_string s
  | VNum n => negb (n =? 0)
  | VBool b => b
  | VNull => false
  | VNested _ => true
  end.

Definition sensitiveFields : list string :=
  ["password"; "token"; "secret"; "apiKey"; "authorization"; "credit_card";
   "creditCard"]%string.

(** One round of the [forEach]:
    [if (sanitizedBody[field]) sanitizedBody[field] = '[REDACTED]'] *)
Definition redact (sanitizedBody : gmap string value) (field : string)
  : gmap string value :=
  match sanitizedBody !! field with
  | Some v => if truthy v then <[field := VStr "[REDACTED]"]> sanitizedBody
              else sanitizedBody
  | None => sanitizedBody
  end.

(** The object the [body] token hands to [JSON.stringify]: the copy
    [{ ...req.body }] after the [forEach] over the sensitive fields. *)
Definition sanitize (body : gmap string value) : gmap string value :=
  foldl redact body sensitiveFields.

(** What the [body] token writes: a dash when the request has no body,
    else the JSON text of the sanitized copy, [Logged o] standing for
    [JSON.stringify(o)]. *)
Inductive logged : Type :=
| Dash
| Logged (o : gmap string value).

Definition body_token (body : option (gmap string value)) : logged :=
  match body with
  | None => Dash
  | Some b => Logged (sanitize b)
  end.

(** [requestId]: [req.id] is the client's [x-request-id] header or
    else the fresh [uuidv4()]; the same value is set as the response's
    [x-request-id] header. The result is the request with its id and
    that response header. *)
Definition requestId (x_request_id : option string) (uuid : string)
           (req : Req.request) : Req.request * (string * string) :=
  let id := Js.or_default x_request_id uuid in
  (Req.Request (Req.method req) (Req.path req) (Req.originalUrl req) (Req.ip req)
               id (Req.authorization req) (Req.cookies req) (Req.queryToken req)
               (Req.user req) (Req.targetService req),
   ("x-request-id"%string, id)).

(** [config.logging.excludePaths], and the test of [morganFormat]
    that drops the log line of a request,
    [config.logging.excludePaths.includes(req.path)]. *)
Definition excludePaths : list string := ["/api/health"; "/api/metrics"]%string.

Definition skipped (req : Req.request) : bool :=
  Js.arr_includes (Req.path req) excludePaths.

End Logger.

(** ** The auth service: what it issues and publishes

    [generateTokens] of the JWT utility functions signs the tokens that the
    middleware above verifies; [getJwks] of
    [controllers/auth.controller.js] answers the request [fetchJwks]
    makes. *)

Module AuthService.

Local Open Scope Z_scope.

(** [config.jwt] under the environment [env] *)
Definition jwt_issuer (env : gmap string string) : string :=
  Js.or_default (env !! "TOKEN_ISSUER") "portfolio-api".
Definition jwt_audience (env : gmap string string) : string :=
  Js.or_default (env !! "TOKEN_AUDIENCE") "portfolio-client".
Definition jwt_algorithm : string := "RS256".

(** What [generateTokens] reads of a user; [permissions] is the value
    of [user.getPermissions()]. *)
Record user : Type := User {
  id : string;
  email : string;
  roles : list string;
  permissions : list string
}.

(** [generateTokens]: the access token, as [jwt.decode] reads it back.
    [jwt.sign] is called with the options [algorithm], [expiresIn],
    [issuer] and [audience] and with no [keyid]: the header names the
    algorithm and has no [kid]; the payload is [accessPayload] with
    [iss], [aud] and [exp], [expiresIn] seconds after the time of
    issue [iat]. *)
Definition accessToken (env : gmap string string) (u : user) (iat expiresIn : Z)
  : Jwt.decoded :=
  Jwt.Decoded (Jwt.Header jwt_algorithm None)
    (Jwt.Claims (id u) (Some (email u)) None (Some (roles u)) (Some (permissions u))
       (Some (jwt_issuer env)) (Some (jwt_audience env)) (Some (iat + expiresIn))).

(** [s.split(sep)] for a non-empty separator: [cur] is the piece read
    so far, [skip] the number of characters of a separator just found
    that are still to be passed over. *)
Fixpoint split_from (sep : string) (skip : nat) (s cur : string) : list string :=
  match s with
  | EmptyString => [cur]
  | String c s' =>
      match skip with
      | S k => split_from sep k s' cur
      | O =>
          if Js.startsWith sep s
          then cur :: split_from sep (String.length sep - 1) s' EmptyString
          else split_from sep O s' (cur ++ String c EmptyString)%string
      end
  end.

Definition split (sep s : string) : list string := split_from sep O s EmptyString.

(** [s.replace(/\s+/g, '')] on ASCII text: tab, line feed, vertical
    tab, form feed, carriage return and space are removed. *)
Definition is_space (c : ascii) : bool :=
  let k := nat_of_ascii c in
  ((Nat.leb 9 k && Nat.leb k 13) || Nat.eqb k 32)%bool.

Fixpoint strip_spaces (s : string) : string :=
  match s with
  | EmptyString => EmptyString
  | String c s' => if is_space c then strip_spaces s' else String c (strip_spaces s')
  end.

(** [getJwks]: the key set published for the public key in PEM form.
    [None] is the 400 answer of the [catch], reached when the text
    has no third piece between dash runs. *)
Definition getJwks (publicKey : string) : option ServiceAuth.jwks :=
  match split "-----" publicKey !! 2%nat with
  | Some piece =>
      Some (ServiceAuth.Jwks
              [ServiceAuth.Jwk "1" "RSA" (strip_spaces piece) "AQAB" "RS256"])
  | None => None
  end.

(** Base64 text has no dash. *)
Fixpoint dash_free (s : string) : bool :=
  match s with
  | EmptyString => true
  | String c s' => (negb (Ascii.eqb c "-") && dash_free s')%bool
  end.

(** A public key in PEM form, as [generateKeyPairSync] encodes it,
    with the given base64 body. *)
Definition pem (body : string) : string :=
  ("-----BEGIN PUBLIC KEY-----" ++ ServiceAuth.nl ++ body ++ ServiceAuth.nl
     ++ "-----END PUBLIC KEY-----" ++ ServiceAuth.nl)%string.

End AuthService.

(** ** The reasons the gateway gives for a rejected token *)

Module Reasons.


End Reasons.

(** ** More inputs: a request of the profile service, a login body *)

Module Cases.

Local Open Scope Z_scope.

(** [GET /api/profiles/me] with the first token as bearer. *)
Definition request_me : Req.request :=
  Req.Request "GET" "/api/profiles/me" "/api/profiles/me"
    "10.0.0.7" "req-6" (Some "Bearer good.token"%string) None None None None.

(** A request that carries the first token in the cookie of the
    service middleware only. *)
Definition request_cookie : Req.request :=
  Req.Request "GET" "/api/analytics/metrics" "/api/analytics/metrics"
    "10.0.0.7" "req-8" None (Some [("accessToken", "good.token")]%string)
    None None None.

(** The body of a login request with a remember-me flag and an empty
    one-time token. *)
Definition login_body : gmap string Logger.value :=
  <["email"%string := Logger.VStr "ada@example.org"]>
    (<["password"%string := Logger.VStr "s3cret"]>
       (<["token"%string := Logger.VStr ""]>
          (<["Password"%string := Logger.VStr "other"]>
             (<["remember"%string := Logger.VBool true]> ∅)))).

(** A service at clock 5000000 ms whose issuer does not answer, the
    cached key set of [Samples.svc_state] having expired. *)
Definition svc_world_outage : ServiceAuth.world :=
  ServiceAuth.World 5000000 ∅ (fun _ => None).

(** A service at clock 1000000 ms with an empty cache whose issuer
    answers with [Samples.set1], and the same service half an hour
    later, the issuer having rotated its keys away. *)
Definition svc_world_fresh : ServiceAuth.world :=
  ServiceAuth.World 1000000 ∅ (fun _ => Some Samples.set1).

Definition svc_state_empty : ServiceAuth.state :=
  ServiceAuth.State None None [].

Definition svc_world_rotated : ServiceAuth.world :=
  ServiceAuth.World 2800000 ∅ (fun _ => Some (ServiceAuth.Jwks [])).

(** A decoder that reads one more token, signed by [generateTokens]
    for user [user-42] at second 900 with a quarter of an hour to
    live. *)
Definition user42 : AuthService.user :=
  AuthService.User "user-42" "ada@example.org" ["admin"; "user"] ["projects:write"].

Definition decode (token : string) : option Jwt.decoded :=
  if String.eqb token "issued.token"
  then Some (AuthService.accessToken ∅ user42 900 900)
  else Samples.decode token.

Definition rs256 (key token : string) : bool :=
  (String.eqb token "issued.token" || Samples.rs256 key token)%bool.

(** A base64 body of two lines. *)
Definition body2 : string :=
  ("QUJDREVG" ++ ServiceAuth.nl ++ "R0hJSktM")%string.

Definition request_issued : Req.request :=
  Req.Request "GET" "/api/analytics/metrics" "/api/analytics/metrics"
    "10.0.0.7" "req-9" (Some "Bearer issued.token"%string) None None None None.

End Cases.

(** * Properties *)

(** ** The JWKS cache and token verification of a service *)

Section ServiceAuthFacts.
Import ServiceAuth.
Variable decode : string -> option Jwt.decoded.
Variable rs256 : string -> string -> bool.
Local Open Scope Z_scope.

Lemma fetchJwks_live w s set :
  live_cache w s = Some set -> fetchJwks w s = (Ok set, s).
Proof.
  intros H. unfold fetchJwks, try_catch, bind, ask, get. rewrite H. reflexivity.
Qed.

(** Without a live cache [fetchJwks] asks the issuer exactly once, and
    caches the answer if there is one. *)
Lemma fetchJwks_stale w s :
  live_cache w s = None ->
  fetchJwks w s =
  match axios_get w (jwksUrl w) with
  | Some data =>
      (Ok data, State (Some data) (Some (now w)) (fetched s ++ [jwksUrl w]))
  | None => (Thrown "Unable to fetch JWKS",
             State (jwksCache s) (jwksCacheTime s) (fetched s ++ [jwksUrl w]))
  end.
Proof.
  intros H. unfold fetchJwks, try_catch, bind, ask, get, http_get, put, ret, throw.
  rewrite H. fold (jwksUrl w). destruct (axios_get w (jwksUrl w)); reflexivity.
Qed.

(** [fetchJwks] returns the current key set. *)
Lemma fetchJwks_current w s set s1 :
  current_key_set w s = Some (set, s1) -> fetchJwks w s = (Ok set, s1).
Proof.
  unfold current_key_set. destruct (live_cache w s) as [cached|] eqn:L.
  - intros [= <- <-]. apply (fetchJwks_live L).
  - rewrite (fetchJwks_stale L). destruct (axios_get w (jwksUrl w)); [|discriminate].
    intros [= <- <-]. reflexivity.
Qed.

Lemma getPublicKey_hit w s set s1 k key :
  current_key_set w s = Some (set, s1) ->
  Js.find (fun key => String.eqb (kid key) k) (keys set) = Some key ->
  getPublicKey k w s = (Ok (pem_of key), s1).
Proof.
  intros H F. unfold getPublicKey, try_catch, bind.
  rewrite (fetchJwks_current H), F. reflexivity.
Qed.

Lemma getPublicKey_live_hit w s set k key :
  live_cache w s = Some set ->
  Js.find (fun key => String.eqb (kid key) k) (keys set) = Some key ->
  getPublicKey k w s = (Ok (pem_of key), s).
Proof.
  intros H F. unfold getPublicKey, try_catch, bind.
  rewrite (fetchJwks_live H), F. reflexivity.
Qed.

Lemma getPublicKey_live_miss w s set k :
  live_cache w s = Some set ->
  Js.find (fun key => String.eqb (kid key) k) (keys set) = None ->
  getPublicKey k w s =
  (Thrown "Unable to retrieve public key for token verification", s).
Proof.
  intros H F. unfold getPublicKey, try_catch, bind.
  rewrite (fetchJwks_live H), F. reflexivity.
Qed.

Lemma getPublicKey_stale w s k :
  live_cache w s = None ->
  getPublicKey k w s =
  match axios_get w (jwksUrl w) with
  | Some data =>
      (match Js.find (fun key => String.eqb (kid key) k) (keys data) with
       | Some key => Ok (pem_of key)
       | None => Thrown "Unable to retrieve public key for token verification"
       end,
       State (Some data) (Some (now w)) (fetched s ++ [jwksUrl w]))
  | None => (Thrown "Unable to retrieve public key for token verification",
             State (jwksCache s) (jwksCacheTime s) (fetched s ++ [jwksUrl w]))
  end.
Proof.
  intros H. unfold getPublicKey, try_catch, bind.
  rewrite (fetchJwks_stale H).
  destruct (axios_get w (jwksUrl w)) as [data|]; [|reflexivity].
  destruct (Js.find _ (keys data)); reflexivity.
Qed.

Lemma live_cache_cached w s set :
  live_cache w s = Some set -> jwksCache s = Some set.
Proof.
  unfold live_cache. destruct (jwksCache s), (jwksCacheTime s); try discriminate.
  destruct (_ && _)%bool; congruence.
Qed.

Lemma verifyToken_resolved w s token d k set s1 key e :
  decode token = Some d ->
  Jwt.kid (Jwt.hdr d) = Some k ->
  Js.truthy_string k = true ->
  current_key_set w s = Some (set, s1) ->
  Js.find (fun key => String.eqb (kid key) k) (keys set) = Some key ->
  rs256 (pem_of key) token = true ->
  Jwt.alg (Jwt.hdr d) = "RS256"%string ->
  Jwt.iss (Jwt.payload d) = Some (Jwt.issuer (verifyOptions w)) ->
  Jwt.aud (Jwt.payload d) = Some (Jwt.audience (verifyOptions w)) ->
  Jwt.exp (Jwt.payload d) = Some e ->
  now w / 1000 < e ->
  verifyToken decode rs256 token w s = (Ok (Jwt.payload d), s1).
Proof.
  intros Hd Hk Ht Hl Hf Hs Ha Hi Hau He Hlt.
  unfold verifyToken, try_catch. rewrite Hd, Hk, Ht.
  unfold bind, ask. rewrite (getPublicKey_hit Hl Hf).
  unfold Jwt.verify. rewrite Hd, Ha, Hs, He, Hi, Hau.
  simpl. rewrite !String.eqb_refl. simpl.
  destruct (e <=? now w / 1000) eqn:E; [apply Z.leb_le in E; lia|]. reflexivity.
Qed.

(** With a token in the request, [authenticate] is decided by
    [verifyToken]. *)
Lemma authenticate_verified required req w s token c s1 :
  Req.extractToken "accessToken" req = Some token ->
  Js.truthy_string token = true ->
  verifyToken decode rs256 token w s = (Ok c, s1) ->
  authenticate decode rs256 required req w s =
  (Ok (Req.Next (Req.set_user (Some (identity_of c)) req)), s1).
Proof.
  intros He Ht Hv. unfold authenticate, try_catch. rewrite He. unfold Js.truthy.
  rewrite Ht. simpl. unfold bind. rewrite Hv. reflexivity.
Qed.

Lemma authenticate_rejected required req w s token message s1 :
  Req.extractToken "accessToken" req = Some token ->
  Js.truthy_string token = true ->
  verifyToken decode rs256 token w s = (Thrown message, s1) ->
  authenticate decode rs256 required req w s =
  (Ok (if required
       then Req.Respond (Http.json Http.UNAUTHORIZED
                           (Http.formatError "Authentication failed" message))
       else Req.Next (Req.set_user None req)), s1).
Proof.
  intros He Ht Hv. unfold authenticate, try_catch. rewrite He. unfold Js.truthy.
  rewrite Ht. simpl. unfold bind. rewrite Hv. destruct required; reflexivity.
Qed.

(** C1. A token whose key id names a key of the current cached key
    set (the cached set while it is within its time to live, the set
    the issuer answers with once it has expired), whose signature
    verifies against that key, whose algorithm is RS256, whose issuer
    and audience are the configured ones and whose expiry lies in the
    future: [verifyToken] returns its claims, and [authenticate] puts
    on the request an identity whose id is the [sub] claim and whose
    roles are the [roles] claim. *)
Theorem verifyToken_accepts_valid_token
  w s token d k set s1 key e required req :
  decode token = Some d ->
  Jwt.kid (Jwt.hdr d) = Some k ->
  Js.truthy_string k = true ->
  current_key_set w s = Some (set, s1) ->
  Js.find (fun key => String.eqb (kid key) k) (keys set) = Some key ->
  rs256 (pem_of key) token = true ->
  Jwt.alg (Jwt.hdr d) = "RS256"%string ->
  Jwt.iss (Jwt.payload d) = Some (Js.or_default (env w !! "TOKEN_ISSUER") "portfolio-api") ->
  Jwt.aud (Jwt.payload d) = Some (Js.or_default (env w !! "TOKEN_AUDIENCE") "portfolio-client") ->
  Jwt.exp (Jwt.payload d) = Some e ->
  now w / 1000 < e ->
  Req.extractToken "accessToken" req = Some token ->
  Js.truthy_string token = true ->
  verifyToken decode rs256 token w s = (Ok (Jwt.payload d), s1) /\
  exists u,
    authenticate decode rs256 required req w s =
      (Ok (Req.Next (Req.set_user (Some u) req)), s1) /\
    Req.id u = Jwt.sub (Jwt.payload d) /\
    Req.roles u = Js.or_empty (Jwt.roles (Jwt.payload d)) /\
    (forall rs, Jwt.roles (Jwt.payload d) = Some rs -> Req.roles u = rs).
Proof.
  intros Hd Hk Ht Hl Hf Hs Ha Hi Hau He Hlt Hx Hn.
  assert (Hv : verifyToken decode rs256 token w s = (Ok (Jwt.payload d), s1))
    by (eapply verifyToken_resolved; eauto).
  split; [exact Hv|].
  exists (identity_of (Jwt.payload d)). split.
  - apply (authenticate_verified required Hx Hn Hv).
  - simpl. repeat split. intros rs Hr. rewrite Hr. reflexivity.
Qed.

End ServiceAuthFacts.

Lemma verifyToken_accepts_valid_token_witness :
  ServiceAuth.verifyToken Samples.decode Samples.rs256 "good.token"
    Samples.svc_world Samples.svc_state = (Ok Samples.claims1, Samples.svc_state) /\
  exists u,
    ServiceAuth.authenticate Samples.decode Samples.rs256 true Samples.request1
      Samples.svc_world Samples.svc_state =
      (Ok (Req.Next (Req.set_user (Some u) Samples.request1)), Samples.svc_state) /\
    Req.id u = "user-42"%string /\
    Req.roles u = ["admin"; "user"]%string /\
    (forall rs, Some ["admin"; "user"]%string = Some rs -> Req.roles u = rs).
Proof.
  apply (@verifyToken_accepts_valid_token Samples.decode Samples.rs256
           Samples.svc_world Samples.svc_state "good.token" Samples.decoded1 "1"
           Samples.set1 Samples.svc_state Samples.key1 20000%Z true Samples.request1);
    try reflexivity.
Defined.

(** The same token after the cached key set has expired: the set is
    fetched once and the token verifies against the fetched key. *)
Example verifyToken_after_expiry :
  ServiceAuth.verifyToken Samples.decode Samples.rs256 "good.token"
    Samples.svc_world_late Samples.svc_state =
    (Ok Samples.claims1,
     ServiceAuth.State (Some Samples.set1) (Some 8200000%Z) [Samples.jwks_url]).
Proof. reflexivity. Qed.

(** Every lookup asks the issuer at most once. *)
Lemma getPublicKey_fetches_at_most_once (w : ServiceAuth.world) (s : ServiceAuth.state) k :
  exists extra,
    ServiceAuth.fetched (snd (ServiceAuth.getPublicKey k w s)) = ServiceAuth.fetched s ++ extra /\
    (length extra <= 1)%nat.
Proof.
  destruct (ServiceAuth.live_cache w s) as [set|] eqn:L.
  - exists []. rewrite app_nil_r. split; [|simpl; lia].
    destruct (Js.find (fun key => String.eqb (ServiceAuth.kid key) k) (ServiceAuth.keys set)) eqn:F.
    + rewrite (getPublicKey_live_hit L F). reflexivity.
    + rewrite (getPublicKey_live_miss L F). reflexivity.
  - eexists [_]. split; [|simpl; lia].
    rewrite (getPublicKey_stale k L).
    destruct (ServiceAuth.axios_get w _); reflexivity.
Qed.

(** C2 (amended). A lookup of a key id that the cached key set does
    not hold: while the cache is within its time to live it fails
    without asking the issuer and leaves the state as it was; when the
    cache has expired or is empty it asks the issuer exactly once, and
    succeeds exactly when the answer holds the key id. No lookup asks
    more than once. *)
Theorem getPublicKey_absent_key (w : ServiceAuth.world) (s : ServiceAuth.state) k :
  ServiceAuth.cached_key s k = None ->
  let url := ServiceAuth.jwksUrl w in
  let r := ServiceAuth.getPublicKey k w s in
  (forall live, ServiceAuth.live_cache w s = Some live ->
     r = (Thrown "Unable to retrieve public key for token verification", s)) /\
  (ServiceAuth.live_cache w s = None ->
     ServiceAuth.fetched (snd r) = ServiceAuth.fetched s ++ [url] /\
     (is_ok (fst r) = true <->
      exists data key,
        ServiceAuth.axios_get w url = Some data /\
        Js.find (fun key => String.eqb (ServiceAuth.kid key) k) (ServiceAuth.keys data) = Some key)) /\
  (exists extra,
     ServiceAuth.fetched (snd r) = ServiceAuth.fetched s ++ extra /\ (length extra <= 1)%nat).
Proof.
  intros Hf url r. split; [|split].
  - intros live L. pose proof (live_cache_cached L) as Hc.
    unfold ServiceAuth.cached_key in Hf. rewrite Hc in Hf.
    apply (getPublicKey_live_miss L Hf).
  - intros L. subst r. rewrite (getPublicKey_stale k L). fold url.
    destruct (ServiceAuth.axios_get w url) as [data|] eqn:A.
    + simpl. split; [reflexivity|].
      destruct (Js.find _ (ServiceAuth.keys data)) as [key|] eqn:F; simpl.
      * split; [intros _; exists data, key; auto | reflexivity].
      * split; [discriminate|]. intros (d' & key & Hd & Hk).
        assert (d' = data) by congruence. subst d'. congruence.
    + simpl. split; [reflexivity|]. split; [discriminate|].
      intros (d' & key & Hd & _). discriminate.
  - apply getPublicKey_fetches_at_most_once.
Qed.

Lemma getPublicKey_absent_key_witness :
  let w := Samples.svc_world in
  let s := Samples.svc_state in
  let r := ServiceAuth.getPublicKey "2" w s in
  (forall live, ServiceAuth.live_cache w s = Some live ->
     r = (Thrown "Unable to retrieve public key for token verification", s)) /\
  (ServiceAuth.live_cache w s = None ->
     ServiceAuth.fetched (snd r) = ServiceAuth.fetched s ++ [Samples.jwks_url] /\
     (is_ok (fst r) = true <->
      exists data key,
        ServiceAuth.axios_get w Samples.jwks_url = Some data /\
        Js.find (fun key => String.eqb (ServiceAuth.kid key) "2") (ServiceAuth.keys data) = Some key)) /\
  (exists extra,
     ServiceAuth.fetched (snd r) = ServiceAuth.fetched s ++ extra /\ (length extra <= 1)%nat).
Proof.
  apply (@getPublicKey_absent_key Samples.svc_world Samples.svc_state "2").
  reflexivity.
Defined.

(** C2 as the specification words it fails: with the key set cached
    less than an hour ago, the lookup of a key id it does not hold
    fails and the issuer is never asked. *)
Lemma getPublicKey_miss_does_not_refresh :
  ServiceAuth.cached_key Samples.svc_state "2" = None /\
  ServiceAuth.getPublicKey "2" Samples.svc_world Samples.svc_state =
    (Thrown "Unable to retrieve public key for token verification", Samples.svc_state) /\
  ServiceAuth.fetched Samples.svc_state = [] /\
  ~ AsStated.one_forced_refresh.
Proof.
  repeat split.
  intros H.
  destruct (H Samples.svc_world Samples.svc_state "2"%string eq_refl)
    as (url & message & s' & Hr & Hf).
  change (ServiceAuth.getPublicKey "2" Samples.svc_world Samples.svc_state)
    with (@Thrown string "Unable to retrieve public key for token verification",
          Samples.svc_state) in Hr.
  injection Hr as _ <-. simpl in Hf. discriminate.
Qed.

(** Two hours after the key set was cached the cache has expired: the
    lookup of a key id asks the issuer once, succeeds for the key id
    the answer holds and fails for one it does not hold. *)
Example getPublicKey_after_expiry :
  ServiceAuth.getPublicKey "1" Samples.svc_world_late Samples.svc_state =
    (Ok (ServiceAuth.pem_of Samples.key1),
     ServiceAuth.State (Some Samples.set1) (Some 8200000%Z) [Samples.jwks_url]) /\
  ServiceAuth.getPublicKey "2" Samples.svc_world_late Samples.svc_state =
    (Thrown "Unable to retrieve public key for token verification",
     ServiceAuth.State (Some Samples.set1) (Some 8200000%Z) [Samples.jwks_url]).
Proof. split; reflexivity. Qed.

(** ** The guards *)

Lemma arr_includes_elem_of x (l : list string) :
  Js.arr_includes x l = true <-> x ∈ l.
Proof.
  unfold Js.arr_includes. rewrite existsb_exists. split.
  - intros (y & Hy & E). apply String.eqb_eq in E. subst y.
    apply list_elem_of_In. exact Hy.
  - intros H. exists x. split; [apply list_elem_of_In; exact H | apply String.eqb_refl].
Qed.

Lemma every_includes_subseteq (need have : list string) :
  Js.every (fun x => Js.arr_includes x have) need = true <-> need ⊆ have.
Proof.
  unfold Js.every. rewrite forallb_forall. split.
  - intros H x Hx. apply arr_includes_elem_of, H, list_elem_of_In, Hx.
  - intros H x Hx. apply arr_includes_elem_of, H, list_elem_of_In, Hx.
Qed.

Lemma some_includes_Exists (need have : list string) :
  Js.some (fun x => Js.arr_includes x have) need = true <->
  Exists (fun x => x ∈ have) need.
Proof.
  unfold Js.some. rewrite existsb_exists, Exists_exists. split.
  - intros (x & Hx & Hi). exists x. split; [apply list_elem_of_In, Hx | apply arr_includes_elem_of, Hi].
  - intros (x & Hx & Hi). exists x. split; [apply list_elem_of_In, Hx | apply arr_includes_elem_of, Hi].
Qed.

(** C8. On a request that carries an identity, [hasPermission] calls
    [next()] exactly when the identity's permissions include every
    required permission, and [hasRole] exactly when the identity holds
    one of the allowed roles; otherwise each answers 403. *)
Theorem guards_decide_by_inclusion (u : Req.identity) (req : Req.request)
        (required : Authz.requirement) :
  let r := Req.set_user (Some u) req in
  Authz.hasPermission required r =
    (if decide (Authz.as_array required ⊆ Req.permissions u)
     then Req.Next r
     else Req.Respond (Http.Response 403
            (Http.ErrorBody "Access denied" "Insufficient permissions"))) /\
  Authz.hasRole required r =
    (if decide (Exists (fun role => role ∈ Req.roles u) (Authz.as_array required))
     then Req.Next r
     else Req.Respond (Http.Response 403
            (Http.ErrorBody "Access denied" "Insufficient permissions"))).
Proof.
  intros r. unfold Authz.hasPermission, Authz.hasRole. subst r. simpl Req.user.
  split.
  - destruct (decide (Authz.as_array required ⊆ Req.permissions u)) as [H|H].
    + apply every_includes_subseteq in H. rewrite H. reflexivity.
    + destruct (Js.every _ _) eqn:E; [|reflexivity].
      apply every_includes_subseteq in E. contradiction.
  - destruct (decide (Exists _ _)) as [H|H].
    + apply some_includes_Exists in H. rewrite H. reflexivity.
    + destruct (Js.some _ _) eqn:E; [|reflexivity].
      apply some_includes_Exists in E. contradiction.
Qed.

(** ** The rate limiter *)

Section RateLimiterFacts.
Import GatewayConfig RateLimiter.
Local Open Scope Z_scope.
Variable window_end : Z -> Z -> Z.
Variable o : rateLimiterOptions.
Variable req : Req.request.

(** A request of another client leaves a client's counter alone. *)
Lemma rateLimit_other_client now (other : Req.request) (store : gmap string window) :
  Req.ip other <> Req.ip req ->
  snd (rateLimit window_end o now other store) !! Req.ip req = store !! Req.ip req.
Proof.
  intros Hne. unfold rateLimit.
  destruct (max o <? hits _); simpl; apply lookup_insert_ne; exact Hne.
Qed.

(** The first request outside any window opens one. *)
Lemma rateLimit_opens_window now (store : gmap string window) :
  match store !! Req.ip req with
  | Some w => resetTime w <=? now
  | None => true
  end = true ->
  rateLimit window_end o now req store =
  ((if max o <? 1 then Req.Respond (handler o) else Req.Next req),
   <[Req.ip req := Window 1 (window_end now (windowMs o))]> store).
Proof.
  intros H. unfold rateLimit, increment.
  destruct (store !! Req.ip req) as [w|].
  - apply Z.leb_le in H.
    destruct (now <? resetTime w) eqn:E; [apply Z.ltb_lt in E; lia|].
    simpl. destruct (max o <? 1); reflexivity.
  - simpl. destruct (max o <? 1); reflexivity.
Qed.

(** A request inside the window of its client counts one more hit. *)
Lemma rateLimit_in_window now (store : gmap string window) h r :
  store !! Req.ip req = Some (Window h r) ->
  now < r ->
  rateLimit window_end o now req store =
  ((if max o <? h + 1 then Req.Respond (handler o) else Req.Next req),
   <[Req.ip req := Window (h + 1) r]> store).
Proof.
  intros H Hlt. unfold rateLimit, increment. rewrite H. simpl.
  destruct (now <? r) eqn:E; [|apply Z.ltb_ge in E; lia].
  simpl. destruct (max o <? h + 1); reflexivity.
Qed.

Lemma serve_in_window ts : forall (store : gmap string window) h r,
  store !! Req.ip req = Some (Window h r) ->
  forallb (fun t => t <? r) ts = true ->
  length (fst (serve window_end o req ts store)) = length ts /\
  snd (serve window_end o req ts store) !! Req.ip req = Some (Window (h + Z.of_nat (length ts)) r) /\
  forall i a, fst (serve window_end o req ts store) !! i = Some a ->
    a = if max o <? h + Z.of_nat i + 1 then Req.Respond (handler o) else Req.Next req.
Proof.
  induction ts as [|t ts IH]; intros store h r Hs Hin.
  - simpl. split; [reflexivity|]. split; [rewrite Z.add_0_r; exact Hs|].
    intros i a Hi. destruct i; discriminate.
  - simpl in Hin. apply andb_true_iff in Hin as [Ht Hin]. apply Z.ltb_lt in Ht.
    simpl serve. rewrite (rateLimit_in_window Hs Ht).
    specialize (IH (<[Req.ip req := Window (h + 1) r]> store) (h + 1) r
                   (lookup_insert_eq _ _ _) Hin).
    destruct (serve window_end o req ts _) as [answers store2]. simpl in *.
    destruct IH as (Hlen & Hst & Hans).
    split; [congruence|]. split.
    + rewrite Hst. f_equal. f_equal. lia.
    + intros [|i] a Hi; simpl in Hi.
      * injection Hi as <-. replace (h + Z.of_nat 0 + 1) with (h + 1) by lia. reflexivity.
      * rewrite (Hans i a Hi). replace (h + 1 + Z.of_nat i + 1) with (h + Z.of_nat (S i) + 1) by lia.
        reflexivity.
Qed.

(** C3. A client with no running window sends a request at [t0] and
    further requests before the window opened at [t0] ends: the first
    [max] requests pass, every later one is answered by the handler
    with status 429, and a request at or after the end of the window
    passes again. This holds for any rule by which the store ends its
    windows; with a store that ends a window [windowMs] after its
    first hit the window of the client is the [windowMs] after [t0].
    When the limiter
    is the standard one under a configuration of 100 requests per
    60000 ms, the answer to the 101st request of the window is the 429
    whose message reads "1 minutes", the window in minutes. *)
Theorem fixed_window_limit (store : gmap string window) t0 ts :
  1 <= max o ->
  match store !! Req.ip req with
  | Some w => resetTime w <=? t0
  | None => true
  end = true ->
  forallb (fun t => t <? window_end t0 (windowMs o)) ts = true ->
  let answers := fst (serve window_end o req (t0 :: ts) store) in
  let store' := snd (serve window_end o req (t0 :: ts) store) in
  length answers = S (length ts) /\
  (forall i a, answers !! i = Some a ->
     a = if Z.of_nat i <? max o then Req.Next req else Req.Respond (handler o)) /\
  Http.status (handler o) = 429 /\
  (forall t', window_end t0 (windowMs o) <= t' -> fst (rateLimit window_end o t' req store') = Req.Next req) /\
  (forall cfg a,
     o = standardLimiter cfg -> windowMs cfg = 60000 -> max cfg = 100 ->
     answers !! 100%nat = Some a ->
     a = Req.Respond (Http.Response 429
           (Http.ErrorBody "Too many requests" "Please try again after 1 minutes"))).
Proof.
  intros Hmax Hfresh Hin answers store'.
  subst answers store'. simpl serve. rewrite (rateLimit_opens_window Hfresh).
  pose proof (@serve_in_window ts (<[Req.ip req := Window 1 (window_end t0 (windowMs o))]> store)
                1 (window_end t0 (windowMs o)) (lookup_insert_eq _ _ _) Hin) as (Hlen & Hst & Hans).
  destruct (serve window_end o req ts _) as [answers store2]. cbn [fst snd length] in *.
  assert (Hall : forall i a,
    ((if max o <? 1 then Req.Respond (handler o) else Req.Next req) :: answers) !! i = Some a ->
    a = if Z.of_nat i <? max o then Req.Next req else Req.Respond (handler o)).
  { intros [|i] a Hi; simpl in Hi.
    - injection Hi as <-.
      destruct (max o <? 1) eqn:E; [apply Z.ltb_lt in E; lia|].
      destruct (Z.of_nat 0 <? max o) eqn:E2; [reflexivity|apply Z.ltb_ge in E2; lia].
    - rewrite (Hans i a Hi).
      destruct (max o <? 1 + Z.of_nat i + 1) eqn:E1; destruct (Z.of_nat (S i) <? max o) eqn:E2;
        try reflexivity;
        [apply Z.ltb_lt in E1; apply Z.ltb_lt in E2; lia
        |apply Z.ltb_ge in E1; apply Z.ltb_ge in E2; lia]. }
  split; [congruence|]. split; [exact Hall|]. split; [reflexivity|]. split.
  - intros t' Ht'.
    assert (Hroll : match store2 !! Req.ip req with
                    | Some w => resetTime w <=? t'
                    | None => true
                    end = true).
    { rewrite Hst. cbn [resetTime]. apply Z.leb_le. exact Ht'. }
    rewrite (rateLimit_opens_window Hroll). cbn [fst].
    destruct (max o <? 1) eqn:E; [apply Z.ltb_lt in E; lia|]. reflexivity.
  - intros cfg a Ho Hw Hm Ha. rewrite (Hall _ _ Ha).
    subst o. unfold handler, standardLimiter, createRateLimiter, spread; simpl.
    rewrite Hw, Hm. reflexivity.
Qed.

End RateLimiterFacts.

Lemma fixed_window_limit_witness :
  let o := RateLimiter.standardLimiter
             (GatewayConfig.RateLimiterOptions 60000 100 None true false) in
  let run := RateLimiter.serve RateLimiter.from_first_hit o Samples.request1
               (0 :: replicate 100 30000)%Z ∅ in
  let answers := fst run in
  let store' := snd run in
  length answers = 101%nat /\
  (forall i a, answers !! i = Some a ->
     a = if (Z.of_nat i <? 100)%Z then Req.Next Samples.request1
         else Req.Respond (RateLimiter.handler o)) /\
  Http.status (RateLimiter.handler o) = 429%Z /\
  (forall t', (RateLimiter.from_first_hit 0 60000 <= t')%Z ->
     fst (RateLimiter.rateLimit RateLimiter.from_first_hit o t' Samples.request1 store') =
     Req.Next Samples.request1) /\
  (forall cfg a,
     o = RateLimiter.standardLimiter cfg ->
     GatewayConfig.windowMs cfg = 60000%Z -> GatewayConfig.max cfg = 100%Z ->
     answers !! 100%nat = Some a ->
     a = Req.Respond (Http.Response 429
           (Http.ErrorBody "Too many requests" "Please try again after 1 minutes"))).
Proof.
  apply (@fixed_window_limit RateLimiter.from_first_hit
           (RateLimiter.standardLimiter
              (GatewayConfig.RateLimiterOptions 60000 100 None true false))
           Samples.request1 ∅ 0%Z (replicate 100 30000%Z)).
  - vm_compute. discriminate.
  - reflexivity.
  - vm_compute. reflexivity.
Defined.

(** The limiters as the gateway is configured: the standard one
    answers its 101st request with a message of 15 minutes. *)
Lemma standardLimiter_as_configured :
  let o := RateLimiter.standardLimiter GatewayConfig.server_rateLimiter in
  GatewayConfig.windowMs o = 900000%Z /\ GatewayConfig.max o = 100%Z /\
  RateLimiter.handler o =
    Http.Response 429
      (Http.ErrorBody "Too many requests" "Please try again after 15 minutes").
Proof. repeat split. Qed.

(** ** The gateway's middleware *)

Section GatewayFacts.
Import Gateway Pipeline.
Variable decode : string -> option Jwt.decoded.
Variable rs256 : string -> string -> bool.
Local Open Scope Z_scope.

(** Token verification in the gateway reads the world and leaves the
    state of the process alone. *)
Lemma gateway_verifyToken_state token w s :
  snd (verifyToken decode rs256 token w s) = s.
Proof.
  unfold verifyToken, try_catch, bind, ask, throw, getSigningKey, try_catch.
  destruct (decode token) as [d|]; [|reflexivity].
  destruct (Jwt.kid (Jwt.hdr d)) as [k|]; [|reflexivity].
  destruct (Js.truthy_string k); [|reflexivity].
  destruct (jwksClient_getSigningKey w k); [|reflexivity].
  destruct (Jwt.verify _ _ _ _ _ _); reflexivity.
Qed.

(** The gateway's [verifyToken] accepts a token whose key the JWKS
    client resolves, under the same conditions as the service's. *)
Lemma gateway_verifyToken_accepts w s token d k key e :
  decode token = Some d ->
  Jwt.kid (Jwt.hdr d) = Some k ->
  Js.truthy_string k = true ->
  jwksClient_getSigningKey w k = Some key ->
  rs256 key token = true ->
  Jwt.alg (Jwt.hdr d) = "RS256"%string ->
  Jwt.iss (Jwt.payload d) = Some (GatewayConfig.auth_issuer (env w)) ->
  Jwt.aud (Jwt.payload d) = Some (GatewayConfig.auth_audience (env w)) ->
  Jwt.exp (Jwt.payload d) = Some e ->
  now w / 1000 < e ->
  verifyToken decode rs256 token w s = (Ok (Jwt.payload d), s).
Proof.
  intros Hd Hk Ht Hg Hs Ha Hi Hau He Hlt.
  unfold verifyToken, try_catch. rewrite Hd, Hk, Ht.
  unfold bind, ask, getSigningKey, try_catch. rewrite Hg.
  unfold Jwt.verify. rewrite Hd, Ha, Hs, He, Hi, Hau.
  simpl. rewrite !String.eqb_refl. simpl.
  destruct (e <=? now w / 1000) eqn:E; [apply Z.leb_le in E; lia|]. reflexivity.
Qed.

(** The ways a token fails in the gateway: it does not decode, its
    key cannot be resolved, its signature does not verify, or it has
    expired. Each makes [verifyToken] throw. *)
Lemma gateway_verifyToken_failure_modes w s token :
  (decode token = None ->
   verifyToken decode rs256 token w s = (Thrown "Invalid token format", s)) /\
  (forall d k,
     decode token = Some d -> Jwt.kid (Jwt.hdr d) = Some k ->
     Js.truthy_string k = true ->
     jwksClient_getSigningKey w k = None ->
     verifyToken decode rs256 token w s = (Thrown "Unable to retrieve signing key", s)) /\
  (forall d k key,
     decode token = Some d -> Jwt.kid (Jwt.hdr d) = Some k ->
     Js.truthy_string k = true ->
     jwksClient_getSigningKey w k = Some key ->
     Jwt.alg (Jwt.hdr d) = "RS256"%string ->
     rs256 key token = false ->
     verifyToken decode rs256 token w s = (Thrown "invalid signature", s)) /\
  (forall d k key e,
     decode token = Some d -> Jwt.kid (Jwt.hdr d) = Some k ->
     Js.truthy_string k = true ->
     jwksClient_getSigningKey w k = Some key ->
     Jwt.alg (Jwt.hdr d) = "RS256"%string ->
     rs256 key token = true ->
     Jwt.exp (Jwt.payload d) = Some e ->
     e <= now w / 1000 ->
     verifyToken decode rs256 token w s = (Thrown "jwt expired", s)).
Proof.
  unfold verifyToken, try_catch.
  split; [|split; [|split]].
  - intros ->. reflexivity.
  - intros d k Hd Hk Ht Hg. rewrite Hd, Hk, Ht.
    unfold bind, ask, getSigningKey, try_catch. rewrite Hg. reflexivity.
  - intros d k key Hd Hk Ht Hg Ha Hs. rewrite Hd, Hk, Ht.
    unfold bind, ask, getSigningKey, try_catch. rewrite Hg.
    unfold Jwt.verify. rewrite Hd, Ha, Hs. reflexivity.
  - intros d k key e Hd Hk Ht Hg Ha Hs He Hle. rewrite Hd, Hk, Ht.
    unfold bind, ask, getSigningKey, try_catch. rewrite Hg.
    unfold Jwt.verify. rewrite Hd, Ha, Hs, He. simpl.
    destruct (e <=? now w / 1000) eqn:E; [reflexivity|apply Z.leb_gt in E; lia].
Qed.

(** [authenticate] always produces a step, never an exception, and
    leaves the state alone. *)
Lemma gateway_authenticate_total required req w s :
  exists a, authenticate decode rs256 required req w s = (Ok a, s).
Proof.
  unfold authenticate, try_catch.
  destruct (negb (Js.truthy _) && required)%bool; [eexists; reflexivity|].
  destruct (negb (Js.truthy _) && negb required)%bool; [eexists; reflexivity|].
  unfold bind.
  pose proof (gateway_verifyToken_state
                (default EmptyString (Req.extractToken GatewayConfig.auth_tokenCookieName req))
                w s) as Hs.
  destruct (verifyToken _ _ _ _ _) as [[c|message] s1]; simpl in Hs; subst s1.
  - eexists; reflexivity.
  - destruct required; eexists; reflexivity.
Qed.

Lemma gateway_authenticate_verified required req w s token c :
  Req.extractToken GatewayConfig.auth_tokenCookieName req = Some token ->
  Js.truthy_string token = true ->
  verifyToken decode rs256 token w s = (Ok c, s) ->
  authenticate decode rs256 required req w s =
  (Ok (Req.Next (Req.set_user (Some (identity_of c)) req)), s).
Proof.
  intros He Ht Hv. unfold authenticate, try_catch. rewrite He. unfold Js.truthy.
  rewrite Ht. simpl. unfold bind. rewrite Hv. reflexivity.
Qed.

Lemma gateway_authenticate_rejected required req w s token message :
  Req.extractToken GatewayConfig.auth_tokenCookieName req = Some token ->
  Js.truthy_string token = true ->
  verifyToken decode rs256 token w s = (Thrown message, s) ->
  authenticate decode rs256 required req w s =
  (Ok (if required
       then Req.Respond (Http.json Http.UNAUTHORIZED
                           (Http.formatError "Authentication failed" message))
       else Req.Next (Req.set_user None req)), s).
Proof.
  intros He Ht Hv. unfold authenticate, try_catch. rewrite He. unfold Js.truthy.
  rewrite Ht. simpl. unfold bind. rewrite Hv. destruct required; reflexivity.
Qed.

(** A limiter answers with its own store updated and nothing else. *)
Lemma limit_step l req w s :
  exists a s',
    limit l req w s = (Ok a, s') /\ forwarded s' = forwarded s /\
    a = fst (RateLimiter.rateLimit (window_end w) (limiter_options l) (now w) req
               (match l with
                | standardLimiter => standardStore s
                | strictLimiter => strictStore s
                | publicLimiter => publicStore s
                end)).
Proof.
  unfold limit. destruct l;
    destruct (RateLimiter.rateLimit _ _ _ _) as [a st]; eexists _, _; eauto.
Qed.

(** Every middleware of the gateway returns a step; only the proxy
    sends anything to a backend. *)
Lemma run_total m req w s :
  exists a s',
    run decode rs256 m req w s = (Ok a, s') /\
    (stage_of m <> ForwardStage -> forwarded s' = forwarded s).
Proof.
  destruct m; simpl run.
  - destruct (limit_step l req w s) as (a & s' & H & Hf & _). eauto.
  - destruct (gateway_authenticate_total required req w s) as (a & H). eauto.
  - eexists _, _; split; [reflexivity|auto].
  - eexists _, _; split; [reflexivity|auto].
  - eexists _, _; split; [reflexivity|auto].
  - unfold proxy. destruct (backend w _) as [[code text]|];
      eexists _, _; (split; [reflexivity|]); simpl; congruence.
  - eexists _, _; split; [reflexivity|auto].
  - eexists _, _; split; [reflexivity|auto].
  - eexists _, _; split; [reflexivity|auto].
Qed.

Lemma run_chain_cons m rest req w s :
  run_chain decode rs256 (m :: rest) req w s =
  match run decode rs256 m req w s with
  | (Ok (Req.Next req'), s') => run_chain decode rs256 rest req' w s'
  | (Ok (Req.Respond res), s') => (Ok (Req.Respond res), s')
  | (Thrown e, s') => (Thrown e, s')
  end.
Proof.
  simpl. unfold bind. destruct (run _ _ _ _ _ _) as [[[r|res]|e] s']; reflexivity.
Qed.

(** A chain of stages none of which is the proxy forwards nothing. *)
Lemma run_chain_gates_keep_forwarded gates : forall req w s a s',
  forallb (fun m => negb (match stage_of m with ForwardStage => true | _ => false end)) gates = true ->
  run_chain decode rs256 gates req w s = (Ok a, s') ->
  forwarded s' = forwarded s.
Proof.
  induction gates as [|m gates IH]; intros req w s a s' Hg Hr.
  - simpl in Hr. injection Hr as _ <-. reflexivity.
  - simpl in Hg. apply andb_true_iff in Hg as [Hm Hg].
    rewrite run_chain_cons in Hr.
    destruct (run_total m req w s) as (a1 & s1 & H1 & Hf). rewrite H1 in Hr.
    assert (Hf1 : forwarded s1 = forwarded s).
    { apply Hf. intros E. rewrite E in Hm. discriminate. }
    destruct a1 as [req1|res].
    + rewrite <- Hf1. eapply IH; eauto.
    + injection Hr as _ <-. exact Hf1.
Qed.

(** A response produced inside a prefix of a chain is the response of
    the chain: what follows the prefix is not run. *)
Lemma run_chain_prefix_responds pre : forall rest req w s res s',
  run_chain decode rs256 pre req w s = (Ok (Req.Respond res), s') ->
  run_chain decode rs256 (pre ++ rest) req w s = (Ok (Req.Respond res), s').
Proof.
  induction pre as [|m pre IH]; intros rest req w s res s' Hr.
  - simpl in Hr. discriminate.
  - rewrite <- app_comm_cons. rewrite run_chain_cons in *.
    destruct (run decode rs256 m req w s) as [[[req1|res1]|e] s1]; auto.
Qed.

Lemma is_gate_not_forward m :
  is_gate m = true ->
  negb (match stage_of m with ForwardStage => true | _ => false end) = true.
Proof. unfold is_gate. destruct (stage_of m); simpl; congruence. Qed.

(** The chain of a registered route starts with its two gates; when
    they answer the request, the proxy behind them is not run. *)
Lemma registered_chain_rejection serviceKey svc r req w s res s' :
  run_chain decode rs256
    [Limit (limiter_for r (prefix svc ++ path r)); Authenticate (auth r)] req w s =
    (Ok (Req.Respond res), s') ->
  run_chain decode rs256 (chain_of serviceKey svc r) req w s = (Ok (Req.Respond res), s') /\
  forwarded s' = forwarded s.
Proof.
  intros Hr. split.
  - unfold chain_of.
    replace (if auth r then Authenticate true else Authenticate false)
      with (Authenticate (auth r)) by (destruct (auth r); reflexivity).
    apply (@run_chain_prefix_responds
             [Limit (limiter_for r (prefix svc ++ path r)); Authenticate (auth r)]
             [TargetInfo serviceKey (target svc); Proxy (target svc)]).
    exact Hr.
  - eapply run_chain_gates_keep_forwarded; [|exact Hr]. reflexivity.
Qed.

(** C5. When the gates at the head of a chain (limiters,
    [authenticate], [hasRole], [hasPermission], in any composition)
    answer a request themselves, that answer is the answer of the whole
    chain whatever follows them, and the list of requests sent to
    backends is what it was before: the proxy is not invoked. *)
Theorem gate_rejection_never_forwards gates rest req w s res s' :
  forallb is_gate gates = true ->
  run_chain decode rs256 gates req w s = (Ok (Req.Respond res), s') ->
  run_chain decode rs256 (gates ++ rest) req w s = (Ok (Req.Respond res), s') /\
  forwarded s' = forwarded s.
Proof.
  intros Hg Hr. split.
  - apply run_chain_prefix_responds. exact Hr.
  - eapply run_chain_gates_keep_forwarded; [|exact Hr].
    rewrite forallb_forall in *. intros m Hm. apply is_gate_not_forward, Hg, Hm.
Qed.

End GatewayFacts.

(** ** The route loop and the application's stack *)

Section RouterFacts.
Import Gateway Pipeline Router.
Variable decode : string -> option Jwt.decoded.
Variable rs256 : string -> string -> bool.
Local Open Scope Z_scope.

(** Patterns on concrete paths: a parameter segment stands for one
    non-empty segment, literal segments ignore case, a trailing slash
    is optional, and a pattern does not match a longer or shorter
    path. *)
Example path_matches_examples :
  path_matches "/api/profiles/:id" "/api/profiles/123" = true /\
  path_matches "/api/profiles/:id" "/API/Profiles/123/" = true /\
  path_matches "/api/profiles/:id" "/api/profiles" = false /\
  path_matches "/api/profiles/:id" "/api/profiles/123/skills" = false /\
  path_matches "/api/profiles" "/api/profiles/" = true /\
  path_matches "/health" "/healthz" = false.
Proof. repeat split. Qed.

(** Every layer of the route loop carries the chain of its route. *)
Lemma route_layers_spec table l :
  In l (route_layers table) ->
  exists serviceKey svc r,
    In (serviceKey, svc) table /\ In r (routes_of svc) /\
    l = OnMethod (Js.toLowerCase (method r)) (prefix svc ++ path r)%string
                 (chain_of serviceKey svc r).
Proof.
  unfold route_layers. rewrite in_flat_map. intros ([serviceKey svc] & Ht & Hl).
  apply in_map_iff in Hl as (r & <- & Hr). eauto 6.
Qed.

Lemma dispatch_cons l rest req w s :
  dispatch decode rs256 (l :: rest) req w s =
  if layer_matches l req then
    match run_chain decode rs256 (handlers_of l) req w s with
    | (Ok (Req.Respond res), s') => (Ok (Some res), s')
    | (Ok (Req.Next req'), s') => dispatch decode rs256 rest req' w s'
    | (Thrown e, s') => (Thrown e, s')
    end
  else dispatch decode rs256 rest req w s.
Proof.
  cbn [dispatch]. destruct (layer_matches l req); [|reflexivity].
  unfold bind. destruct (run_chain _ _ _ _ _ _) as [[[r|res]|e] s']; reflexivity.
Qed.

(** The stack answers every request in its first two layers: the
    health check, or else the fallback registered right after it. The
    state of the process is left as it was. *)
Lemma handle_answer req w s :
  handle decode rs256 req w s =
  (Ok (Some (if layer_matches health_layer req
             then health_response else not_found_response req)), s).
Proof.
  unfold handle, Gateway.app. cbn [Datatypes.app].
  change (OnMethod "get" "/health" [Health]) with health_layer.
  rewrite dispatch_cons.
  destruct (layer_matches health_layer req); [reflexivity|].
  rewrite dispatch_cons. reflexivity.
Qed.

(** C4 (amended). The chain the route loop registers for a route is,
    in this order, a limiter, [authenticate] with the route's [auth]
    flag, the function that records the target service, and the proxy
    to the service's target; no stage of it is an authorization
    guard. *)
Theorem registered_chain_stages (table : list (string * service)) :
  Forall
    (fun l =>
       (exists serviceKey svc r,
          In (serviceKey, svc) table /\ In r (routes_of svc) /\
          handlers_of l =
            [ Limit (limiter_for r (prefix svc ++ path r));
              Authenticate (auth r);
              TargetInfo serviceKey (target svc);
              Proxy (target svc) ]) /\
       map stage_of (handlers_of l) =
         [RateLimitStage; AuthenticateStage; OtherStage; ForwardStage] /\
       ~ In AuthorizeStage (map stage_of (handlers_of l)))
    (route_layers table).
Proof.
  apply List.Forall_forall. intros l Hl.
  destruct (route_layers_spec Hl) as (serviceKey & svc & r & Ht & Hr & ->).
  simpl handlers_of. unfold chain_of. split; [|split].
  - exists serviceKey, svc, r. repeat split; auto. destruct (auth r); reflexivity.
  - destruct (auth r); reflexivity.
  - destruct (auth r); simpl; intuition discriminate.
Qed.


End RouterFacts.



(** C4 as the specification words it fails: the chain registered for
    [GET /api/analytics/metrics], a route that requires
    authentication, has no authorization stage. *)
Lemma registered_chain_lacks_authorization :
  let l := Gateway.OnMethod "get" "/api/analytics/metrics"
             [ Gateway.Limit Gateway.standardLimiter;
               Gateway.Authenticate true;
               Gateway.TargetInfo "analytics" "http://analytics-service:3006";
               Gateway.Proxy "http://analytics-service:3006" ] in
  In l (Gateway.route_layers (Gateway.routes ∅)) /\
  map Pipeline.stage_of (Router.handlers_of l) =
    [Pipeline.RateLimitStage; Pipeline.AuthenticateStage;
     Pipeline.OtherStage; Pipeline.ForwardStage] /\
  ~ AsStated.four_gates_in_order ∅.
Proof.
  intros l.
  assert (Hin : In l (Gateway.route_layers (Gateway.routes ∅))).
  { vm_compute. repeat (first [left; reflexivity | right]). }
  split; [exact Hin|]. split; [reflexivity|].
  intros H. specialize (H l Hin). apply sublist_subseteq in H.
  specialize (H Pipeline.AuthorizeStage).
  assert (Hx : Pipeline.AuthorizeStage ∈ map Pipeline.stage_of (Router.handlers_of l)).
  { apply H. rewrite !elem_of_cons. auto. }
  simpl in Hx. rewrite !elem_of_cons, elem_of_nil in Hx.
  intuition discriminate.
Qed.


(** ** [JSON.stringify] and [JSON.parse] on arrays of strings *)

Lemma string_app_cons c (a b : string) : (String c a ++ b)%string = String c (a ++ b).
Proof. reflexivity. Qed.

Lemma string_app_nil (b : string) : (EmptyString ++ b)%string = b.
Proof. reflexivity. Qed.

Lemma string_app_assoc (a b c : string) : ((a ++ b) ++ c)%string = (a ++ (b ++ c))%string.
Proof.
  induction a as [|x a IH]; [reflexivity|].
  rewrite !string_app_cons, IH. reflexivity.
Qed.









(** ** Identity headers on the forwarded request *)

Section ForwardingFacts.
Import Gateway Pipeline Router.
Variable decode : string -> option Jwt.decoded.
Variable rs256 : string -> string -> bool.
Local Open Scope Z_scope.




(** The proxy sends one request and answers with what the backend
    answers. *)
Lemma proxy_step tgt req w s :
  proxy tgt req w s =
  (Ok (Req.Respond
         (match backend w (Outbound tgt (Req.method req) (Req.originalUrl req)
                                    (onProxyReq req)) with
          | Some (code, text) => Http.Response code (Http.UpstreamBody text)
          | None => proxy_failure w
          end)),
   State (standardStore s) (strictStore s) (publicStore s)
         (forwarded s ++ [Outbound tgt (Req.method req) (Req.originalUrl req)
                                   (onProxyReq req)])).
Proof. unfold proxy. destruct (backend w _) as [[code text]|]; reflexivity. Qed.

(** Once the limiter has let a request pass, the rest of a registered
    chain is [authenticate] followed, when it calls [next()], by the
    proxy on the request [authenticate] produced. *)
Lemma run_chain_after_authenticate required name tgt req req1 w s :
  authenticate decode rs256 required req w s = (Ok (Req.Next req1), s) ->
  run_chain decode rs256 [Authenticate required; TargetInfo name tgt; Proxy tgt] req w s =
  proxy tgt (Req.set_targetService (name, tgt) req1) w s.
Proof.
  intros Ha. rewrite run_chain_cons. cbn [run]. rewrite Ha.
  rewrite run_chain_cons. cbn [run]. unfold ret at 1.
  rewrite run_chain_cons. cbn [run].
  rewrite proxy_step. reflexivity.
Qed.

(** The outcome of token verification does not depend on the state. *)
Lemma gateway_verifyToken_any_state token w s s0 :
  verifyToken decode rs256 token w s0 = (fst (verifyToken decode rs256 token w s), s0).
Proof.
  unfold verifyToken, try_catch, bind, ask, throw, getSigningKey, try_catch.
  destruct (decode token) as [d|]; [|reflexivity].
  destruct (Jwt.kid (Jwt.hdr d)) as [k|]; [|reflexivity].
  destruct (Js.truthy_string k); [|reflexivity].
  destruct (jwksClient_getSigningKey w k); [|reflexivity].
  destruct (Jwt.verify _ _ _ _ _ _); reflexivity.
Qed.



End ForwardingFacts.

Lemma gate_rejection_never_forwards_witness :
  let gates := [Gateway.Limit Gateway.standardLimiter; Gateway.Authenticate true] in
  let rest := [Gateway.TargetInfo "analytics" "http://analytics-service:3006";
               Gateway.Proxy "http://analytics-service:3006"] in
  let res := Http.Response 401
               (Http.ErrorBody "Authentication required" "No token provided") in
  let s' := Gateway.State (<["10.0.0.9"%string := RateLimiter.Window 1 1900000]> ∅) ∅ ∅ [] in
  Gateway.run_chain Samples.decode Samples.rs256 (gates ++ rest)
    Samples.request_no_token Samples.gw_world Samples.empty_state =
    (Ok (Req.Respond res), s') /\
  Gateway.forwarded s' = Gateway.forwarded Samples.empty_state.
Proof.
  apply (@gate_rejection_never_forwards Samples.decode Samples.rs256
           [Gateway.Limit Gateway.standardLimiter; Gateway.Authenticate true]
           [Gateway.TargetInfo "analytics" "http://analytics-service:3006";
            Gateway.Proxy "http://analytics-service:3006"]
           Samples.request_no_token Samples.gw_world Samples.empty_state).
  - reflexivity.
  - vm_compute. reflexivity.
Defined.



(** C6, evaluated. [GET /api/analytics/metrics] with a bearer token of
    key id [1], issuer [portfolio-api], audience [portfolio-client],
    not expired: the request matches a registered route and its token
    verifies; the chain registered for that route would forward it to
    the analytics service with [X-User-ID] set to the [sub] claim and
    would pass the backend's 201 through; the application answers it
    404 from the fallback, registered before the routes, and forwards
    nothing. *)
Theorem registered_route_is_answered_by_fallback :
  let req := Samples.request1 in
  let w := Samples.gw_world in
  let s := Samples.empty_state in
  let tgt := "http://analytics-service:3006"%string in
  let chain := [ Gateway.Limit Gateway.standardLimiter;
                 Gateway.Authenticate true;
                 Gateway.TargetInfo "analytics" tgt;
                 Gateway.Proxy tgt ] in
  Router.matchRoute (Gateway.routes (Gateway.env w)) req =
    Some (Gateway.OnMethod "get" "/api/analytics/metrics" chain) /\
  Gateway.verifyToken Samples.decode Samples.rs256 "good.token" w s =
    (Ok Samples.claims1, s) /\
  (exists s',
     Gateway.run_chain Samples.decode Samples.rs256 chain req w s =
       (Ok (Req.Respond (Http.Response 201 (Http.UpstreamBody "created"))), s') /\
     Gateway.forwarded s' =
       [ Gateway.Outbound tgt "GET" "/api/analytics/metrics"
           [ ("X-User-ID"%string, "user-42"%string);
             ("X-User-Roles"%string, Json.stringify ["admin"; "user"]%string);
             ("X-Request-ID"%string, "req-1"%string) ] ]) /\
  Router.handle Samples.decode Samples.rs256 req w s =
    (Ok (Some (Http.Response 404
                 (Http.NotFoundBody "Not Found"
                    "Route /api/analytics/metrics not found" 404))), s).
Proof.
  intros req w s tgt chain. split; [vm_compute; reflexivity|].
  split; [vm_compute; reflexivity|]. split.
  - eexists. split; [vm_compute; reflexivity|]. vm_compute. reflexivity.
  - subst req w s. rewrite handle_answer. reflexivity.
Qed.
(** * Further properties of the sources *)

(** ** Where a token is taken from *)

Lemma startsWith_app p t : Js.startsWith p (p ++ t) = true.
Proof.
  induction p as [|c p IH]; [reflexivity|].
  rewrite string_app_cons. simpl. rewrite Ascii.eqb_refl. exact IH.
Qed.

Lemma substring_from_app p t : Js.substring_from (String.length p) (p ++ t) = t.
Proof.
  induction p as [|c p IH]; [destruct t; reflexivity|].
  rewrite string_app_cons. simpl. exact IH.
Qed.

Lemma startsWith_inv p : forall h,
  Js.startsWith p h = true -> h = (p ++ Js.substring_from (String.length p) h)%string.
Proof.
  induction p as [|c p IH]; intros h H.
  - destruct h; reflexivity.
  - destruct h as [|b h]; [discriminate|]. simpl in H.
    apply andb_true_iff in H as [Hc Hp]. apply Ascii.eqb_eq in Hc. subst b.
    rewrite string_app_cons. simpl. f_equal. apply IH, Hp.
Qed.

(** X1. A bearer token in the [Authorization] header is the token of
    the request, whatever the cookies and the query string carry. *)
Theorem extractToken_bearer_first cookieName (req : Req.request) t :
  Req.authorization req = Some ("Bearer " ++ t)%string ->
  Req.extractToken cookieName req = Some t.
Proof.
  intros H. unfold Req.extractToken. rewrite H.
  rewrite (startsWith_app "Bearer " t).
  change (Js.truthy_string ("Bearer " ++ t)) with true.
  cbn [andb option_map].
  exact (f_equal Some (substring_from_app "Bearer " t)).
Qed.

Lemma extractToken_bearer_first_witness :
  Req.extractToken "accessToken" Samples.request1 = Some "good.token"%string.
Proof.
  apply (@extractToken_bearer_first "accessToken" Samples.request1 "good.token").
  reflexivity.
Defined.

(** X2. Every token [extractToken] returns comes from one of the three
    places: it is what follows [Bearer ] in the header, or it is the
    non-empty value of the cookie, or the non-empty [token] query
    parameter; the latter two only when the header carries no bearer
    token. *)
Theorem extractToken_origin cookieName (req : Req.request) t :
  Req.extractToken cookieName req = Some t ->
  Req.authorization req = Some ("Bearer " ++ t)%string \/
  (forall t', Req.authorization req <> Some ("Bearer " ++ t')%string) /\
  Js.truthy_string t = true /\
  ((exists cs, Req.cookies req = Some cs /\ Req.cookie cookieName cs = Some t) \/
   Req.queryToken req = Some t).
Proof.
  unfold Req.extractToken. intros H.
  destruct (Req.authorization req) as [h|] eqn:Eh.
  - destruct (Js.truthy_string h && Js.startsWith "Bearer " h)%bool eqn:Eb.
    + left. apply andb_true_iff in Eb as [_ Eb].
      simpl in H. injection H as <-.
      f_equal. apply (startsWith_inv Eb).
    + right.
      assert (Hno : forall t', Some h <> Some ("Bearer " ++ t')%string).
      { intros t' [= ->]. rewrite (startsWith_app "Bearer " t') in Eb.
        discriminate. }
      destruct (Req.cookies req) as [cs|].
      * destruct (Js.truthy (Req.cookie cookieName cs)) eqn:Ec.
        -- rewrite H in Ec. split; [exact Hno|]. split; [exact Ec|]. left. eauto.
        -- destruct (Js.truthy (Req.queryToken req)) eqn:Eq; [|discriminate].
           rewrite H in Eq. split; [exact Hno|]. split; [exact Eq|]. right. exact H.
      * destruct (Js.truthy (Req.queryToken req)) eqn:Eq; [|discriminate].
        rewrite H in Eq. split; [exact Hno|]. split; [exact Eq|]. right. exact H.
  - right. assert (Hno : forall t', @None string <> Some ("Bearer " ++ t')%string)
      by (intros t'; discriminate).
    destruct (Req.cookies req) as [cs|].
    + destruct (Js.truthy (Req.cookie cookieName cs)) eqn:Ec.
      * rewrite H in Ec. split; [exact Hno|]. split; [exact Ec|]. left. eauto.
      * destruct (Js.truthy (Req.queryToken req)) eqn:Eq; [|discriminate].
        rewrite H in Eq. split; [exact Hno|]. split; [exact Eq|]. right. exact H.
    + destruct (Js.truthy (Req.queryToken req)) eqn:Eq; [|discriminate].
      rewrite H in Eq. split; [exact Hno|]. split; [exact Eq|]. right. exact H.
Qed.

Lemma extractToken_origin_witness :
  Req.authorization Cases.request_cookie = Some ("Bearer " ++ "good.token")%string \/
  (forall t', Req.authorization Cases.request_cookie <> Some ("Bearer " ++ t')%string) /\
  Js.truthy_string "good.token" = true /\
  ((exists cs, Req.cookies Cases.request_cookie = Some cs /\
               Req.cookie "accessToken" cs = Some "good.token"%string) \/
   Req.queryToken Cases.request_cookie = Some "good.token"%string).
Proof.
  apply (@extractToken_origin "accessToken" Cases.request_cookie "good.token").
  reflexivity.
Defined.

(** X3. The gateway and the services read the token from different
    cookies: a request whose only token is the [accessToken] cookie
    has a token for a service's middleware and none for the gateway's,
    which answers 401 on a route that requires authentication. *)
Theorem cookie_name_differs
        (decode : string -> option Jwt.decoded) (rs256 : string -> string -> bool)
        (req : Req.request) cs t (w : Gateway.world) (s : Gateway.state) :
  Req.authorization req = None ->
  Req.queryToken req = None ->
  Req.cookies req = Some cs ->
  Req.cookie "accessToken" cs = Some t ->
  Js.truthy_string t = true ->
  Req.cookie "access_token" cs = None ->
  Req.extractToken "accessToken" req = Some t /\
  Req.extractToken GatewayConfig.auth_tokenCookieName req = None /\
  Gateway.authenticate decode rs256 true req w s =
    (Ok (Req.Respond (Http.Response 401
           (Http.ErrorBody "Authentication required" "No token provided"))), s).
Proof.
  intros Ha Hq Hc Ht Htt Hn.
  assert (E1 : Req.extractToken "accessToken" req = Some t).
  { unfold Req.extractToken. rewrite Ha, Hc, Ht. simpl. rewrite Htt. reflexivity. }
  assert (E2 : Req.extractToken GatewayConfig.auth_tokenCookieName req = None).
  { unfold Req.extractToken, GatewayConfig.auth_tokenCookieName.
    rewrite Ha, Hc, Hn, Hq. reflexivity. }
  split; [exact E1|]. split; [exact E2|].
  unfold Gateway.authenticate, try_catch. rewrite E2. reflexivity.
Qed.

Lemma cookie_name_differs_witness :
  Req.extractToken "accessToken" Cases.request_cookie = Some "good.token"%string /\
  Req.extractToken GatewayConfig.auth_tokenCookieName Cases.request_cookie = None /\
  Gateway.authenticate Samples.decode Samples.rs256 true Cases.request_cookie
    Samples.gw_world Samples.empty_state =
    (Ok (Req.Respond (Http.Response 401
           (Http.ErrorBody "Authentication required" "No token provided"))),
     Samples.empty_state).
Proof.
  apply (@cookie_name_differs Samples.decode Samples.rs256 Cases.request_cookie
           [("accessToken", "good.token")]%string "good.token").
  all: reflexivity.
Defined.

(** ** What a service's middleware accepts, and what it answers *)

Section ServiceAuthMore.
Import ServiceAuth.
Variable decode : string -> option Jwt.decoded.
Variable rs256 : string -> string -> bool.
Local Open Scope Z_scope.

(** [jwt.verify] returns a payload only when every check passed. *)
Lemma jwt_verify_ok_inv now token key o c :
  Jwt.verify decode rs256 now token key o = Ok c ->
  exists d,
    decode token = Some d /\ Jwt.payload d = c /\
    Js.arr_includes (Jwt.alg (Jwt.hdr d)) (Jwt.algorithms o) = true /\
    rs256 key token = true /\
    (forall e, Jwt.exp c = Some e -> now / 1000 < e) /\
    Jwt.aud c = Some (Jwt.audience o) /\
    Jwt.iss c = Some (Jwt.issuer o).
Proof.
  unfold Jwt.verify. destruct (decode token) as [d|]; [|discriminate].
  destruct (Js.arr_includes _ _) eqn:Ea; [|discriminate].
  destruct (rs256 key token) eqn:Es; [|discriminate]. cbn [negb].
  destruct (match Jwt.exp (Jwt.payload d) with Some e => e <=? now / 1000 | None => false end)
    eqn:Ee; [discriminate|].
  destruct (Jwt.aud (Jwt.payload d)) as [a|] eqn:Eaud; [|discriminate].
  destruct (String.eqb a (Jwt.audience o)) eqn:Ea'; [|discriminate].
  destruct (Jwt.iss (Jwt.payload d)) as [i|] eqn:Eiss; [|discriminate].
  destruct (String.eqb i (Jwt.issuer o)) eqn:Ei'; [|discriminate].
  cbn [negb]. intros [= <-]. exists d.
  apply String.eqb_eq in Ea', Ei'. subst a i.
  repeat split; try reflexivity; try assumption.
  intros e He. rewrite He in Ee. lia.
Qed.

(** A key is returned only from the current key set. *)
Lemma getPublicKey_ok_inv k w s pem s1 :
  getPublicKey k w s = (Ok pem, s1) ->
  exists set key,
    current_key_set w s = Some (set, s1) /\
    Js.find (fun key => String.eqb (kid key) k) (keys set) = Some key /\
    pem = pem_of key.
Proof.
  intros H. unfold current_key_set.
  destruct (live_cache w s) as [set|] eqn:El.
  - destruct (Js.find (fun key => String.eqb (kid key) k) (keys set)) as [key|] eqn:Ef.
    + rewrite (getPublicKey_live_hit El Ef) in H. injection H as <- <-. eauto.
    + rewrite (getPublicKey_live_miss El Ef) in H. discriminate.
  - rewrite (getPublicKey_stale k El) in H.
    destruct (axios_get w (jwksUrl w)) as [data|]; [|discriminate].
    destruct (Js.find (fun key => String.eqb (kid key) k) (keys data)) as [key|] eqn:Ef;
      [|discriminate].
    injection H as <- <-. eauto.
Qed.

(** [verifyToken] in terms of its three steps. *)
Lemma service_verifyToken_eq token w s :
  verifyToken decode rs256 token w s =
  match decode token with
  | None => (Thrown "Invalid token", s)
  | Some d =>
      match Jwt.kid (Jwt.hdr d) with
      | Some (String a k') =>
          match getPublicKey (String a k') w s with
          | (Ok publicKey, s1) =>
              (match Jwt.verify decode rs256 (now w) token publicKey (verifyOptions w) with
               | Ok c => Ok c
               | Thrown _ => Thrown "Invalid token"
               end, s1)
          | (Thrown _, s1) => (Thrown "Invalid token", s1)
          end
      | _ => (Thrown "Invalid token", s)
      end
  end.
Proof.
  unfold verifyToken, try_catch.
  destruct (decode token) as [d|]; [|reflexivity].
  destruct (Jwt.kid (Jwt.hdr d)) as [[|a k']|]; [reflexivity| |reflexivity].
  cbn [Js.truthy_string]. unfold bind, ask.
  destruct (getPublicKey (String a k') w s) as [[publicKey|m] s1]; [|reflexivity].
  destruct (Jwt.verify decode rs256 (now w) token publicKey (verifyOptions w));
    reflexivity.
Qed.

(** X4. A token that a service's [verifyToken] accepts has passed
    every check: it decodes, its header names a non-empty key id that
    the current key set holds, its RS256 signature verifies under the
    PEM built from that key, its algorithm is RS256, its expiry, when
    it has one, lies ahead, and its audience and issuer are the
    configured ones. The result is the payload; the state is that of
    the key lookup. *)
Theorem service_verifyToken_sound token w s c s1 :
  verifyToken decode rs256 token w s = (Ok c, s1) ->
  exists d k set key,
    decode token = Some d /\ Jwt.payload d = c /\
    Jwt.kid (Jwt.hdr d) = Some k /\ Js.truthy_string k = true /\
    current_key_set w s = Some (set, s1) /\
    Js.find (fun key => String.eqb (kid key) k) (keys set) = Some key /\
    rs256 (pem_of key) token = true /\
    Jwt.alg (Jwt.hdr d) = "RS256"%string /\
    (forall e, Jwt.exp c = Some e -> now w / 1000 < e) /\
    Jwt.aud c = Some (Js.or_default (env w !! "TOKEN_AUDIENCE") "portfolio-client") /\
    Jwt.iss c = Some (Js.or_default (env w !! "TOKEN_ISSUER") "portfolio-api").
Proof.
  rewrite service_verifyToken_eq.
  destruct (decode token) as [d|] eqn:Ed; [|discriminate].
  destruct (Jwt.kid (Jwt.hdr d)) as [[|a k']|] eqn:Ek; [discriminate| |discriminate].
  destruct (getPublicKey (String a k') w s) as [[publicKey|m] s2] eqn:Eg; [|discriminate].
  destruct (Jwt.verify decode rs256 (now w) token publicKey (verifyOptions w))
    as [c'|m] eqn:Ev; [|discriminate].
  intros [= <- <-].
  destruct (getPublicKey_ok_inv Eg) as (set & key & Hc & Hf & ->).
  destruct (jwt_verify_ok_inv Ev) as (d' & Hd' & Hp & Ha & Hs & He & Haud & Hiss).
  rewrite Ed in Hd'. injection Hd' as <-.
  exists d, (String a k'), set, key.
  repeat split; try assumption.
  cbn in Ha. rewrite orb_false_r in Ha. apply String.eqb_eq in Ha. exact Ha.
Qed.

(** X5. What a service's [authenticate] does with a request, in full.
    It never throws. Without a token (none found, or an empty one) it
    touches nothing and answers 401 [No token provided] when
    authentication is required, else passes the request on
    anonymously. With a token it verifies it: on success the request
    goes on with the identity built from the claims; on failure the
    answer is 401 with the one reason [Invalid token], whatever went
    wrong, or, when authentication is optional, the request goes on
    anonymously. *)
Theorem service_authenticate_outcomes required (req : Req.request) w s :
  exists a s',
    authenticate decode rs256 required req w s = (Ok a, s') /\
    ((Js.truthy (Req.extractToken "accessToken" req) = false /\ s' = s /\
      a = if required
          then Req.Respond (Http.Response 401
                 (Http.ErrorBody "Authentication required" "No token provided"))
          else Req.Next (Req.set_user None req)) \/
     (exists token c,
        Req.extractToken "accessToken" req = Some token /\
        verifyToken decode rs256 token w s = (Ok c, s') /\
        a = Req.Next (Req.set_user (Some (identity_of c)) req)) \/
     (exists token,
        Req.extractToken "accessToken" req = Some token /\
        verifyToken decode rs256 token w s = (Thrown "Invalid token", s') /\
        a = if required
            then Req.Respond (Http.Response 401
                   (Http.ErrorBody "Authentication failed" "Invalid token"))
            else Req.Next (Req.set_user None req))).
Proof.
  destruct (Req.extractToken "accessToken" req) as [token|] eqn:Et.
  - destruct (Js.truthy_string token) eqn:Ett.
    + destruct (verifyToken decode rs256 token w s) as [[c|m] s1] eqn:Ev.
      * exists (Req.Next (Req.set_user (Some (identity_of c)) req)), s1.
        split; [exact (authenticate_verified required Et Ett Ev)|].
        right. left. exists token, c. auto.
      * assert (m = "Invalid token"%string) as ->.
        { rewrite service_verifyToken_eq in Ev.
          destruct (decode token) as [d|]; [|congruence].
          destruct (Jwt.kid (Jwt.hdr d)) as [[|a k']|]; [congruence| |congruence].
          destruct (getPublicKey (String a k') w s) as [[pk|m'] s2]; [|congruence].
          destruct (Jwt.verify decode rs256 (now w) token pk (verifyOptions w));
            congruence. }
        eexists _, s1.
        split; [exact (authenticate_rejected required Et Ett Ev)|].
        right. right. exists token. auto.
    + exists (if required
              then Req.Respond (Http.Response 401
                     (Http.ErrorBody "Authentication required" "No token provided"))
              else Req.Next (Req.set_user None req)), s. split.
      * unfold authenticate, try_catch. rewrite Et. cbn [Js.truthy]. rewrite Ett.
        destruct required; reflexivity.
      * left. cbn [Js.truthy]. rewrite Ett. auto.
  - exists (if required
            then Req.Respond (Http.Response 401
                   (Http.ErrorBody "Authentication required" "No token provided"))
            else Req.Next (Req.set_user None req)), s. split.
    + unfold authenticate, try_catch. rewrite Et. destruct required; reflexivity.
    + left. auto.
Qed.

(** X6. A key set fetched from the issuer is served from the cache,
    with no further request, for as long as less than an hour has
    passed since the fetch, whatever the issuer would answer by then:
    a key withdrawn by the issuer keeps verifying, a key added by it
    is not found. Once an hour has passed the next lookup asks the
    issuer again. *)
Theorem jwks_cache_hides_rotation w s data w' k :
  live_cache w s = None ->
  axios_get w (jwksUrl w) = Some data ->
  now w <> 0 ->
  let s1 := State (Some data) (Some (now w)) (fetched s ++ [jwksUrl w]) in
  fetchJwks w s = (Ok data, s1) /\
  (now w' - now w < JWKS_CACHE_TTL ->
   fetchJwks w' s1 = (Ok data, s1) /\
   getPublicKey k w' s1 =
     (match Js.find (fun key => String.eqb (kid key) k) (keys data) with
      | Some key => Ok (pem_of key)
      | None => Thrown "Unable to retrieve public key for token verification"
      end, s1)) /\
  (JWKS_CACHE_TTL <= now w' - now w ->
   fetched (snd (fetchJwks w' s1)) = fetched s1 ++ [jwksUrl w']).
Proof.
  intros El Ha Hn s1. split; [|split].
  - rewrite (fetchJwks_stale El), Ha. reflexivity.
  - intros Hlt.
    assert (El' : live_cache w' s1 = Some data).
    { unfold live_cache, s1. cbn [jwksCache jwksCacheTime Js.truthy_num].
      destruct (Z.eqb_spec (now w) 0) as [E|_]; [contradiction|].
      destruct (Z.ltb_spec (now w' - now w) JWKS_CACHE_TTL) as [_|E]; [reflexivity|lia]. }
    split; [exact (fetchJwks_live El')|].
    destruct (Js.find (fun key => String.eqb (kid key) k) (keys data)) as [key|] eqn:Ef.
    + exact (getPublicKey_live_hit El' Ef).
    + exact (getPublicKey_live_miss El' Ef).
  - intros Hge.
    assert (El' : live_cache w' s1 = None).
    { unfold live_cache, s1. cbn [jwksCache jwksCacheTime Js.truthy_num].
      destruct (Z.ltb_spec (now w' - now w) JWKS_CACHE_TTL) as [E|_]; [lia|].
      rewrite andb_false_r. reflexivity. }
    rewrite (fetchJwks_stale El').
    destruct (axios_get w' (jwksUrl w')); reflexivity.
Qed.

(** X7. When the cached key set has expired and the issuer does not
    answer, every key lookup fails, also for a key the expired set
    holds, and every token is rejected: the expired set is not fallen
    back on. The cache is left as it was, so the next lookup asks the
    issuer again. *)
Theorem issuer_outage_fails_closed w s k :
  live_cache w s = None ->
  axios_get w (jwksUrl w) = None ->
  let s1 := State (jwksCache s) (jwksCacheTime s) (fetched s ++ [jwksUrl w]) in
  getPublicKey k w s =
    (Thrown "Unable to retrieve public key for token verification", s1) /\
  live_cache w s1 = None /\
  (forall token d,
     decode token = Some d -> Jwt.kid (Jwt.hdr d) = Some k ->
     Js.truthy_string k = true ->
     verifyToken decode rs256 token w s = (Thrown "Invalid token", s1)).
Proof.
  intros El Ha s1.
  assert (Hg : getPublicKey k w s =
               (Thrown "Unable to retrieve public key for token verification", s1)).
  { rewrite (getPublicKey_stale k El), Ha. reflexivity. }
  split; [exact Hg|]. split; [exact El|].
  intros token d Hd Hk Ht. rewrite service_verifyToken_eq, Hd, Hk.
  destruct k as [|a k']; [discriminate|]. rewrite Hg. reflexivity.
Qed.

End ServiceAuthMore.

Lemma service_verifyToken_sound_witness :
  exists d k set key,
    Samples.decode "good.token" = Some d /\ Jwt.payload d = Samples.claims1 /\
    Jwt.kid (Jwt.hdr d) = Some k /\ Js.truthy_string k = true /\
    ServiceAuth.current_key_set Samples.svc_world Samples.svc_state =
      Some (set, Samples.svc_state) /\
    Js.find (fun key => String.eqb (ServiceAuth.kid key) k) (ServiceAuth.keys set) = Some key /\
    Samples.rs256 (ServiceAuth.pem_of key) "good.token" = true /\
    Jwt.alg (Jwt.hdr d) = "RS256"%string /\
    (forall e, Jwt.exp Samples.claims1 = Some e ->
               (ServiceAuth.now Samples.svc_world / 1000 < e)%Z) /\
    Jwt.aud Samples.claims1 =
      Some (Js.or_default (ServiceAuth.env Samples.svc_world !! "TOKEN_AUDIENCE")
                          "portfolio-client") /\
    Jwt.iss Samples.claims1 =
      Some (Js.or_default (ServiceAuth.env Samples.svc_world !! "TOKEN_ISSUER")
                          "portfolio-api").
Proof.
  apply (@service_verifyToken_sound Samples.decode Samples.rs256 "good.token"
           Samples.svc_world Samples.svc_state Samples.claims1 Samples.svc_state).
  vm_compute. reflexivity.
Defined.

Lemma jwks_cache_hides_rotation_witness :
  let w := Cases.svc_world_fresh in
  let w' := Cases.svc_world_rotated in
  let s1 := ServiceAuth.State (Some Samples.set1) (Some 1000000%Z) [Samples.jwks_url] in
  ServiceAuth.fetchJwks w Cases.svc_state_empty = (Ok Samples.set1, s1) /\
  ((ServiceAuth.now w' - ServiceAuth.now w < ServiceAuth.JWKS_CACHE_TTL)%Z ->
   ServiceAuth.fetchJwks w' s1 = (Ok Samples.set1, s1) /\
   ServiceAuth.getPublicKey "1" w' s1 =
     (match Js.find (fun key => String.eqb (ServiceAuth.kid key) "1")
                    (ServiceAuth.keys Samples.set1) with
      | Some key => Ok (ServiceAuth.pem_of key)
      | None => Thrown "Unable to retrieve public key for token verification"
      end, s1)) /\
  ((ServiceAuth.JWKS_CACHE_TTL <= ServiceAuth.now w' - ServiceAuth.now w)%Z ->
   ServiceAuth.fetched (snd (ServiceAuth.fetchJwks w' s1)) =
   ServiceAuth.fetched s1 ++ [ServiceAuth.jwksUrl w']).
Proof.
  apply (@jwks_cache_hides_rotation Cases.svc_world_fresh Cases.svc_state_empty
           Samples.set1 Cases.svc_world_rotated "1").
  - reflexivity.
  - reflexivity.
  - vm_compute. discriminate.
Defined.

Lemma issuer_outage_fails_closed_witness :
  let w := Cases.svc_world_outage in
  let s1 := ServiceAuth.State (Some Samples.set1) (Some 900000%Z) [Samples.jwks_url] in
  ServiceAuth.getPublicKey "1" w Samples.svc_state =
    (Thrown "Unable to retrieve public key for token verification", s1) /\
  ServiceAuth.live_cache w s1 = None /\
  (forall token d,
     Samples.decode token = Some d -> Jwt.kid (Jwt.hdr d) = Some "1"%string ->
     Js.truthy_string "1" = true ->
     ServiceAuth.verifyToken Samples.decode Samples.rs256 token w Samples.svc_state =
       (Thrown "Invalid token", s1)).
Proof.
  apply (@issuer_outage_fails_closed Samples.decode Samples.rs256
           Cases.svc_world_outage Samples.svc_state "1").
  - reflexivity.
  - reflexivity.
Defined.

(** ** The tokens and the key set of the auth service, as the
    middleware receives them *)

Section IssuedTokens.
Variable decode : string -> option Jwt.decoded.
Variable rs256 : string -> string -> bool.
Local Open Scope Z_scope.

(** Without a usable key id both [verifyToken] stop at the first
    test. *)
Lemma verifyToken_no_kid token d :
  decode token = Some d ->
  Js.truthy (Jwt.kid (Jwt.hdr d)) = false ->
  (forall w s, ServiceAuth.verifyToken decode rs256 token w s =
               (Thrown "Invalid token", s)) /\
  (forall w s, Gateway.verifyToken decode rs256 token w s =
               (Thrown "Invalid token format", s)).
Proof.
  intros Hd Hk. split; intros w s.
  - unfold ServiceAuth.verifyToken, try_catch. rewrite Hd.
    destruct (Jwt.kid (Jwt.hdr d)) as [k|]; [|reflexivity].
    cbn [Js.truthy] in Hk. rewrite Hk. reflexivity.
  - unfold Gateway.verifyToken, try_catch. rewrite Hd.
    destruct (Jwt.kid (Jwt.hdr d)) as [k|]; [|reflexivity].
    cbn [Js.truthy] in Hk. rewrite Hk. reflexivity.
Qed.

(** X8. A token whose header has no key id, or an empty one, is
    rejected before any key is looked up and before its signature and
    claims are checked: a service's [verifyToken] throws
    [Invalid token], the gateway's throws [Invalid token format], in
    every state and whatever the clock, the key sets and the signature
    check say; neither changes its state. *)
Theorem token_without_key_id_is_rejected token d :
  decode token = Some d ->
  Js.truthy (Jwt.kid (Jwt.hdr d)) = false ->
  (forall w s, ServiceAuth.verifyToken decode rs256 token w s =
               (Thrown "Invalid token", s)) /\
  (forall w s, Gateway.verifyToken decode rs256 token w s =
               (Thrown "Invalid token format", s)).
Proof.
  intros Hd Hk. split; intros w s.
  - unfold ServiceAuth.verifyToken, try_catch. rewrite Hd.
    destruct (Jwt.kid (Jwt.hdr d)) as [k|]; [|reflexivity].
    cbn [Js.truthy] in Hk. rewrite Hk. reflexivity.
  - unfold Gateway.verifyToken, try_catch. rewrite Hd.
    destruct (Jwt.kid (Jwt.hdr d)) as [k|]; [|reflexivity].
    cbn [Js.truthy] in Hk. rewrite Hk. reflexivity.
Qed.

(** X9. The access token that [generateTokens] signs carries the
    subject, roles and permissions of the user, the algorithm RS256
    and the issuer and audience that the middleware expects under the
    same environment, but no key id. Sent as a bearer token it is
    therefore turned away by both middlewares on a route that requires
    authentication: 401 with [Invalid token] from a service, 401 with
    [Invalid token format] from the gateway, whatever the signature
    check and the key sets say and however long the token has to
    live. *)
Theorem issued_access_token_is_rejected
        (e : gmap string string) (u : AuthService.user) iat expiresIn token
        (req : Req.request) :
  decode token = Some (AuthService.accessToken e u iat expiresIn) ->
  Js.truthy_string token = true ->
  Req.authorization req = Some ("Bearer " ++ token)%string ->
  let d := AuthService.accessToken e u iat expiresIn in
  (Jwt.alg (Jwt.hdr d) = "RS256"%string /\
   Jwt.sub (Jwt.payload d) = AuthService.id u /\
   Jwt.roles (Jwt.payload d) = Some (AuthService.roles u) /\
   Jwt.permissions (Jwt.payload d) = Some (AuthService.permissions u) /\
   Jwt.iss (Jwt.payload d) = Some (GatewayConfig.auth_issuer e) /\
   Jwt.aud (Jwt.payload d) = Some (GatewayConfig.auth_audience e) /\
   (forall w, ServiceAuth.env w = e ->
      Jwt.iss (Jwt.payload d) = Some (Jwt.issuer (ServiceAuth.verifyOptions w)) /\
      Jwt.aud (Jwt.payload d) = Some (Jwt.audience (ServiceAuth.verifyOptions w)))) /\
  (forall w s,
     ServiceAuth.authenticate decode rs256 true req w s =
       (Ok (Req.Respond (Http.Response 401
              (Http.ErrorBody "Authentication failed" "Invalid token"))), s)) /\
  (forall w s,
     Gateway.authenticate decode rs256 true req w s =
       (Ok (Req.Respond (Http.Response 401
              (Http.ErrorBody "Authentication failed" "Invalid token format"))), s)).
Proof.
  intros Hd Ht Ha d.
  assert (Hx : forall c, Req.extractToken c req = Some token).
  { intros c. unfold Req.extractToken. rewrite Ha.
    rewrite (startsWith_app "Bearer " token).
    change (Js.truthy_string ("Bearer " ++ token)) with true.
    cbn [andb option_map].
    exact (f_equal Some (substring_from_app "Bearer " token)). }
  split.
  - repeat split; try reflexivity; intros; subst e; reflexivity.
  - destruct (@verifyToken_no_kid token _ Hd eq_refl) as [Hs Hg].
    split; intros w s.
    + exact (authenticate_rejected true (Hx _) Ht (Hs w s)).
    + exact (gateway_authenticate_rejected true (Hx _) Ht (Hg w s)).
Qed.

End IssuedTokens.

Lemma token_without_key_id_is_rejected_witness :
  (forall w s, ServiceAuth.verifyToken Cases.decode Cases.rs256 "issued.token" w s =
               (Thrown "Invalid token", s)) /\
  (forall w s, Gateway.verifyToken Cases.decode Cases.rs256 "issued.token" w s =
               (Thrown "Invalid token format", s)).
Proof.
  apply (@token_without_key_id_is_rejected Cases.decode Cases.rs256 "issued.token"
           (AuthService.accessToken ∅ Cases.user42 900 900)).
  - reflexivity.
  - reflexivity.
Defined.

Lemma issued_access_token_is_rejected_witness :
  let d := AuthService.accessToken ∅ Cases.user42 900 900 in
  (Jwt.alg (Jwt.hdr d) = "RS256"%string /\
   Jwt.sub (Jwt.payload d) = AuthService.id Cases.user42 /\
   Jwt.roles (Jwt.payload d) = Some (AuthService.roles Cases.user42) /\
   Jwt.permissions (Jwt.payload d) = Some (AuthService.permissions Cases.user42) /\
   Jwt.iss (Jwt.payload d) = Some (GatewayConfig.auth_issuer ∅) /\
   Jwt.aud (Jwt.payload d) = Some (GatewayConfig.auth_audience ∅) /\
   (forall w, ServiceAuth.env w = ∅ ->
      Jwt.iss (Jwt.payload d) = Some (Jwt.issuer (ServiceAuth.verifyOptions w)) /\
      Jwt.aud (Jwt.payload d) = Some (Jwt.audience (ServiceAuth.verifyOptions w)))) /\
  (forall w s,
     ServiceAuth.authenticate Cases.decode Cases.rs256 true Cases.request_issued w s =
       (Ok (Req.Respond (Http.Response 401
              (Http.ErrorBody "Authentication failed" "Invalid token"))), s)) /\
  (forall w s,
     Gateway.authenticate Cases.decode Cases.rs256 true Cases.request_issued w s =
       (Ok (Req.Respond (Http.Response 401
              (Http.ErrorBody "Authentication failed" "Invalid token format"))), s)).
Proof.
  apply (@issued_access_token_is_rejected Cases.decode Cases.rs256 ∅ Cases.user42
           900%Z 900%Z "issued.token" Cases.request_issued).
  - reflexivity.
  - reflexivity.
  - reflexivity.
Defined.


(** ** The published key, from [getJwks] to [getPublicKey] *)

Lemma string_app_nil_r (a : string) : (a ++ EmptyString)%string = a.
Proof.
  induction a as [|x a IH]; [reflexivity|].
  rewrite string_app_cons, IH. reflexivity.
Qed.

Lemma split_from_plain body : forall cur rest,
  AuthService.dash_free body = true ->
  AuthService.split_from "-----" 0 (body ++ rest) cur =
  AuthService.split_from "-----" 0 rest (cur ++ body).
Proof.
  induction body as [|c body IH]; intros cur rest H.
  - rewrite string_app_nil_r, string_app_nil. reflexivity.
  - cbn [AuthService.dash_free] in H. apply andb_true_iff in H as [Hc Hb].
    rewrite string_app_cons. cbn [AuthService.split_from Js.startsWith].
    rewrite Ascii.eqb_sym. apply negb_true_iff in Hc. rewrite Hc. cbn [andb].
    rewrite (IH _ _ Hb), string_app_assoc. reflexivity.
Qed.

Lemma strip_spaces_app a b :
  AuthService.strip_spaces (a ++ b) =
  (AuthService.strip_spaces a ++ AuthService.strip_spaces b)%string.
Proof.
  induction a as [|c a IH]; [reflexivity|].
  rewrite string_app_cons. cbn [AuthService.strip_spaces].
  destruct (AuthService.is_space c); [exact IH|].
  rewrite string_app_cons, IH. reflexivity.
Qed.

Lemma split_from_match rest cur :
  AuthService.split_from "-----" 0 ("-----" ++ rest) cur =
  cur :: AuthService.split_from "-----" 0 rest EmptyString.
Proof.
  rewrite !string_app_cons, string_app_nil.
  destruct rest; reflexivity.
Qed.

Lemma dash_free_app a b :
  AuthService.dash_free (a ++ b) =
  (AuthService.dash_free a && AuthService.dash_free b)%bool.
Proof.
  induction a as [|c a IH]; [reflexivity|].
  rewrite string_app_cons. cbn [AuthService.dash_free].
  rewrite IH, andb_assoc. reflexivity.
Qed.

Lemma split_pem body :
  AuthService.dash_free body = true ->
  AuthService.split "-----" (AuthService.pem body) =
  [ EmptyString; "BEGIN PUBLIC KEY"%string;
    (ServiceAuth.nl ++ body ++ ServiceAuth.nl)%string;
    "END PUBLIC KEY"%string; ServiceAuth.nl ].
Proof.
  intros H. unfold AuthService.split.
  assert (E : AuthService.pem body =
              ("-----" ++ ("BEGIN PUBLIC KEY" ++ ("-----" ++
                 ((ServiceAuth.nl ++ body ++ ServiceAuth.nl) ++
                  ("-----" ++ ("END PUBLIC KEY" ++ ("-----" ++
                     (ServiceAuth.nl ++ EmptyString))))))))%string).
  { unfold AuthService.pem. rewrite !string_app_assoc. reflexivity. }
  rewrite E.
  rewrite split_from_match, (@split_from_plain "BEGIN PUBLIC KEY" _ _ eq_refl).
  rewrite split_from_match, split_from_plain.
  2:{ rewrite !dash_free_app, H. reflexivity. }
  rewrite split_from_match, (@split_from_plain "END PUBLIC KEY" _ _ eq_refl).
  rewrite split_from_match, (@split_from_plain ServiceAuth.nl _ _ eq_refl).
  reflexivity.
Qed.

(** X10. The key the auth service publishes and the key a service
    verifies with. For a public key in PEM form whose base64 body has
    no dash, [getJwks] publishes one key, of id [1], whose [n] is the
    whole body with its line breaks removed (not an RSA modulus), and
    the PEM that [getPublicKey] builds from the published key is the
    original PEM with the body on one line. A service whose cache has
    to be refreshed from that answer resolves key id [1] to that PEM
    and no other key id. *)
Theorem published_key_round_trip body :
  AuthService.dash_free body = true ->
  let key := ServiceAuth.Jwk "1" "RSA" (AuthService.strip_spaces body) "AQAB" "RS256" in
  let rebuilt := ("-----BEGIN PUBLIC KEY-----" ++ ServiceAuth.nl
                    ++ AuthService.strip_spaces body ++ ServiceAuth.nl
                    ++ "-----END PUBLIC KEY-----")%string in
  AuthService.getJwks (AuthService.pem body) = Some (ServiceAuth.Jwks [key]) /\
  ServiceAuth.pem_of key = rebuilt /\
  (forall w s k,
     ServiceAuth.live_cache w s = None ->
     ServiceAuth.axios_get w (ServiceAuth.jwksUrl w) =
       AuthService.getJwks (AuthService.pem body) ->
     fst (ServiceAuth.getPublicKey k w s) =
       if String.eqb "1" k then Ok rebuilt
       else Thrown "Unable to retrieve public key for token verification").
Proof.
  intros H key rebuilt.
  assert (E : AuthService.getJwks (AuthService.pem body) =
              Some (ServiceAuth.Jwks [key])).
  { unfold AuthService.getJwks. rewrite (split_pem H).
    cbn [lookup list_lookup]. rewrite !strip_spaces_app.
    change (AuthService.strip_spaces ServiceAuth.nl) with EmptyString.
    rewrite string_app_nil, string_app_nil_r. reflexivity. }
  split; [exact E|]. split; [reflexivity|].
  intros w s k El Ha. rewrite (getPublicKey_stale k El), Ha, E.
  cbn [ServiceAuth.keys Js.find fst].
  change (ServiceAuth.kid key) with "1"%string.
  destruct (String.eqb "1" k); reflexivity.
Qed.

Lemma published_key_round_trip_witness :
  let key := ServiceAuth.Jwk "1" "RSA" (AuthService.strip_spaces Cases.body2)
               "AQAB" "RS256" in
  let rebuilt := ("-----BEGIN PUBLIC KEY-----" ++ ServiceAuth.nl
                    ++ AuthService.strip_spaces Cases.body2 ++ ServiceAuth.nl
                    ++ "-----END PUBLIC KEY-----")%string in
  AuthService.getJwks (AuthService.pem Cases.body2) = Some (ServiceAuth.Jwks [key]) /\
  ServiceAuth.pem_of key = rebuilt /\
  (forall w s k,
     ServiceAuth.live_cache w s = None ->
     ServiceAuth.axios_get w (ServiceAuth.jwksUrl w) =
       AuthService.getJwks (AuthService.pem Cases.body2) ->
     fst (ServiceAuth.getPublicKey k w s) =
       if String.eqb "1" k then Ok rebuilt
       else Thrown "Unable to retrieve public key for token verification").
Proof.
  apply (@published_key_round_trip Cases.body2).
  reflexivity.
Defined.

(** ** The guards *)

Lemma hasRole_user (rq : Authz.requirement) (r : Req.request) u :
  Req.user r = Some u ->
  Authz.hasRole rq r =
  if Js.some (fun role => Js.arr_includes role (Req.roles u)) (Authz.as_array rq)
  then Req.Next r
  else Req.Respond (Http.Response 403
         (Http.ErrorBody "Access denied" "Insufficient permissions")).
Proof.
  intros H. unfold Authz.hasRole. rewrite H.
  destruct (Js.some _ _); reflexivity.
Qed.

Lemma hasPermission_user (rq : Authz.requirement) (r : Req.request) u :
  Req.user r = Some u ->
  Authz.hasPermission rq r =
  if Js.every (fun p => Js.arr_includes p (Req.permissions u)) (Authz.as_array rq)
  then Req.Next r
  else Req.Respond (Http.Response 403
         (Http.ErrorBody "Access denied" "Insufficient permissions")).
Proof.
  intros H. unfold Authz.hasPermission. rewrite H.
  destruct (Js.every _ _); reflexivity.
Qed.

Lemma hasRole_next_iff (rq : Authz.requirement) (r : Req.request) u :
  Req.user r = Some u ->
  Authz.hasRole rq r = Req.Next r <->
  Exists (fun role => role ∈ Req.roles u) (Authz.as_array rq).
Proof.
  intros H. rewrite (hasRole_user rq H), <- some_includes_Exists.
  destruct (Js.some _ _); split; intros E; try reflexivity; discriminate.
Qed.

Lemma hasPermission_next_iff (rq : Authz.requirement) (r : Req.request) u :
  Req.user r = Some u ->
  Authz.hasPermission rq r = Req.Next r <->
  Authz.as_array rq ⊆ Req.permissions u.
Proof.
  intros H. rewrite (hasPermission_user rq H), <- every_includes_subseteq.
  destruct (Js.every _ _); split; intros E; try reflexivity; discriminate.
Qed.

(** X11. The two guards treat an empty list of requirements in
    opposite ways: [hasPermission([])] lets every authenticated
    request pass, [hasRole([])] rejects every authenticated request
    with 403. Neither lets an unauthenticated request pass. *)
Theorem guards_on_empty_requirement (req : Req.request) :
  (forall u,
     let r := Req.set_user (Some u) req in
     Authz.hasPermission (Authz.Many []) r = Req.Next r /\
     Authz.hasRole (Authz.Many []) r =
       Req.Respond (Http.Response 403
         (Http.ErrorBody "Access denied" "Insufficient permissions"))) /\
  (let r := Req.set_user None req in
   Authz.hasPermission (Authz.Many []) r =
     Req.Respond (Http.Response 401
       (Http.ErrorBody "Authentication required" "User not authenticated")) /\
   Authz.hasRole (Authz.Many []) r =
     Req.Respond (Http.Response 401
       (Http.ErrorBody "Authentication required" "User not authenticated"))).
Proof. split; [intros u; split; reflexivity | split; reflexivity]. Qed.

(** X12. A guard that lets an identity pass lets every identity with
    at least the same roles and permissions pass: granting more never
    takes access away. *)
Theorem guards_are_monotone (u u' : Req.identity) (req : Req.request)
        (required : Authz.requirement) :
  Req.roles u ⊆ Req.roles u' ->
  Req.permissions u ⊆ Req.permissions u' ->
  let r := Req.set_user (Some u) req in
  let r' := Req.set_user (Some u') req in
  (Authz.hasRole required r = Req.Next r ->
   Authz.hasRole required r' = Req.Next r') /\
  (Authz.hasPermission required r = Req.Next r ->
   Authz.hasPermission required r' = Req.Next r').
Proof.
  intros Hr Hp r r'. split.
  - rewrite (@hasRole_next_iff required r u eq_refl),
            (@hasRole_next_iff required r' u' eq_refl).
    intros E. eapply Exists_impl; [exact E|]. intros role Hin. exact (Hr _ Hin).
  - rewrite (@hasPermission_next_iff required r u eq_refl),
            (@hasPermission_next_iff required r' u' eq_refl).
    intros E. etransitivity; eassumption.
Qed.

(** X13. [hasRole] asks for one of the roles, [hasPermission] for all
    of the permissions: on two lists joined, the role guard passes
    exactly when it passes on one of them, the permission guard
    exactly when it passes on both; and a single string is the list
    of one. *)
Theorem guards_on_joined_requirements (req : Req.request) (a b : list string) x :
  Req.user req <> None ->
  (Authz.hasRole (Authz.Many (a ++ b)) req = Req.Next req <->
   Authz.hasRole (Authz.Many a) req = Req.Next req \/
   Authz.hasRole (Authz.Many b) req = Req.Next req) /\
  (Authz.hasPermission (Authz.Many (a ++ b)) req = Req.Next req <->
   Authz.hasPermission (Authz.Many a) req = Req.Next req /\
   Authz.hasPermission (Authz.Many b) req = Req.Next req) /\
  Authz.hasRole (Authz.One x) req = Authz.hasRole (Authz.Many [x]) req /\
  Authz.hasPermission (Authz.One x) req = Authz.hasPermission (Authz.Many [x]) req.
Proof.
  intros Hu. destruct (Req.user req) as [u|] eqn:E; [clear Hu|contradiction].
  split; [|split; [|split; reflexivity]].
  - rewrite !(fun rq => @hasRole_next_iff rq req u E). cbn [Authz.as_array].
    apply Exists_app.
  - rewrite !(fun rq => @hasPermission_next_iff rq req u E). cbn [Authz.as_array].
    split.
    + intros H. split; intros y Hy; apply H, elem_of_app; auto.
    + intros [Ha Hb] y Hy. apply elem_of_app in Hy as [Hy|Hy]; auto.
Qed.

Section GuardChains.
Import Gateway.
Variable decode : string -> option Jwt.decoded.
Variable rs256 : string -> string -> bool.

(** X14. The two guards commute: a chain runs them to the same answer
    in either order, and neither changes the request or the state. *)
Theorem guards_commute (a b : Authz.requirement) (req : Req.request) w s :
  run_chain decode rs256 [HasRole a; HasPermission b] req w s =
  run_chain decode rs256 [HasPermission b; HasRole a] req w s /\
  (forall r s',
     run_chain decode rs256 [HasRole a; HasPermission b] req w s = (Ok (Req.Next r), s') ->
     r = req /\ s' = s).
Proof.
  cbn [run_chain run]. unfold bind, ret.
  destruct (Req.user req) as [u|] eqn:E.
  - rewrite (hasRole_user a E), (hasPermission_user b E).
    destruct (Js.some _ _) eqn:Ea, (Js.every _ _) eqn:Eb; cbn beta iota;
      rewrite ?(hasRole_user a E), ?(hasPermission_user b E), ?Ea, ?Eb;
      (split; [reflexivity | intros r s' H; inversion H; auto]).
  - unfold Authz.hasRole, Authz.hasPermission. rewrite E.
    split; [reflexivity | intros r s' H; inversion H].
Qed.

(** X15. A guard behind [authenticate] decides by the claims of the
    verified token: once the gateway's [verifyToken] has accepted the
    token of a request, a chain of [authenticate] and [hasRole] passes
    the request on exactly when the token's [roles] claim holds one of
    the required roles, and a chain of [authenticate] and
    [hasPermission] exactly when its [permissions] claim holds all the
    required permissions; otherwise the answer is 403. A token
    without the claim has none. *)
Theorem guard_decides_by_claims required (rq : Authz.requirement)
        (req : Req.request) w s token c :
  Req.extractToken GatewayConfig.auth_tokenCookieName req = Some token ->
  Js.truthy_string token = true ->
  verifyToken decode rs256 token w s = (Ok c, s) ->
  let r := Req.set_user (Some (identity_of c)) req in
  let denied := Req.Respond (Http.Response 403
                  (Http.ErrorBody "Access denied" "Insufficient permissions")) in
  run_chain decode rs256 [Authenticate required; HasRole rq] req w s =
    (Ok (if decide (Exists (fun role => role ∈ Js.or_empty (Jwt.roles c))
                           (Authz.as_array rq))
         then Req.Next r else denied), s) /\
  run_chain decode rs256 [Authenticate required; HasPermission rq] req w s =
    (Ok (if decide (Authz.as_array rq ⊆ Js.or_empty (Jwt.permissions c))
         then Req.Next r else denied), s).
Proof.
  intros Ht Htt Hv r denied.
  rewrite !run_chain_cons. cbn [run].
  rewrite (gateway_authenticate_verified required Ht Htt Hv).
  rewrite !run_chain_cons. cbn [run]. unfold ret. fold r.
  rewrite (@hasRole_user rq r (identity_of c) eq_refl),
          (@hasPermission_user rq r (identity_of c) eq_refl).
  cbn [identity_of Req.roles Req.permissions].
  split.
  - destruct (decide _) as [Y|N].
    + apply some_includes_Exists in Y. rewrite Y. reflexivity.
    + destruct (Js.some _ _) eqn:Es; [|reflexivity].
      apply some_includes_Exists in Es. contradiction.
  - destruct (decide _) as [Y|N].
    + apply every_includes_subseteq in Y. rewrite Y. reflexivity.
    + destruct (Js.every _ _) eqn:Es; [|reflexivity].
      apply every_includes_subseteq in Es. contradiction.
Qed.

End GuardChains.

Lemma guards_are_monotone_witness :
  let u := Samples.identity1 in
  let u' := Req.Identity "user-42" None None ["user"; "editor"; "admin"]%string
              ["projects:write"; "blog:write"]%string in
  let r := Req.set_user (Some u) Samples.request1 in
  let r' := Req.set_user (Some u') Samples.request1 in
  (Authz.hasRole (Authz.One "admin") r = Req.Next r ->
   Authz.hasRole (Authz.One "admin") r' = Req.Next r') /\
  (Authz.hasPermission (Authz.One "admin") r = Req.Next r ->
   Authz.hasPermission (Authz.One "admin") r' = Req.Next r').
Proof.
  apply (@guards_are_monotone Samples.identity1
           (Req.Identity "user-42" None None ["user"; "editor"; "admin"]%string
              ["projects:write"; "blog:write"]%string)
           Samples.request1 (Authz.One "admin")).
  - intros x. cbn [Samples.identity1 Req.roles]. rewrite !elem_of_cons.
    intuition.
  - intros x. cbn [Samples.identity1 Req.permissions]. rewrite !elem_of_cons.
    intuition.
Defined.

Lemma guards_on_joined_requirements_witness :
  let req := Req.set_user (Some Samples.identity1) Samples.request1 in
  (Authz.hasRole (Authz.Many (["root"] ++ ["admin"])) req = Req.Next req <->
   Authz.hasRole (Authz.Many ["root"]) req = Req.Next req \/
   Authz.hasRole (Authz.Many ["admin"]) req = Req.Next req) /\
  (Authz.hasPermission (Authz.Many (["root"] ++ ["admin"])) req = Req.Next req <->
   Authz.hasPermission (Authz.Many ["root"]) req = Req.Next req /\
   Authz.hasPermission (Authz.Many ["admin"]) req = Req.Next req) /\
  Authz.hasRole (Authz.One "admin") req = Authz.hasRole (Authz.Many ["admin"]) req /\
  Authz.hasPermission (Authz.One "admin") req =
    Authz.hasPermission (Authz.Many ["admin"]) req.
Proof.
  apply (@guards_on_joined_requirements
           (Req.set_user (Some Samples.identity1) Samples.request1)
           ["root"]%string ["admin"]%string "admin").
  discriminate.
Defined.

Lemma guard_decides_by_claims_witness :
  let r := Req.set_user (Some (Gateway.identity_of Samples.claims1)) Samples.request1 in
  let denied := Req.Respond (Http.Response 403
                  (Http.ErrorBody "Access denied" "Insufficient permissions")) in
  Gateway.run_chain Samples.decode Samples.rs256
    [Gateway.Authenticate true; Gateway.HasRole (Authz.One "admin")]
    Samples.request1 Samples.gw_world Samples.empty_state =
    (Ok (if decide (Exists (fun role => role ∈ Js.or_empty (Jwt.roles Samples.claims1))
                           (Authz.as_array (Authz.One "admin")))
         then Req.Next r else denied), Samples.empty_state) /\
  Gateway.run_chain Samples.decode Samples.rs256
    [Gateway.Authenticate true; Gateway.HasPermission (Authz.One "admin")]
    Samples.request1 Samples.gw_world Samples.empty_state =
    (Ok (if decide (Authz.as_array (Authz.One "admin")
                      ⊆ Js.or_empty (Jwt.permissions Samples.claims1))
         then Req.Next r else denied), Samples.empty_state).
Proof.
  apply (@guard_decides_by_claims Samples.decode Samples.rs256 true (Authz.One "admin")
           Samples.request1 Samples.gw_world Samples.empty_state "good.token"
           Samples.claims1).
  - reflexivity.
  - reflexivity.
  - vm_compute. reflexivity.
Defined.

(** ** The gateway's token verification *)

Section GatewayAuthMore.
Import Gateway.
Variable decode : string -> option Jwt.decoded.
Variable rs256 : string -> string -> bool.
Local Open Scope Z_scope.

(** The gateway's [verifyToken] in terms of its three steps. *)
Lemma gateway_verifyToken_eq token w s :
  verifyToken decode rs256 token w s =
  (match decode token with
   | None => Thrown "Invalid token format"
   | Some d =>
       match Jwt.kid (Jwt.hdr d) with
       | Some (String a k') =>
           match jwksClient_getSigningKey w (String a k') with
           | Some signingKey =>
               match Jwt.verify decode rs256 (now w) token signingKey
                       (Jwt.VerifyOptions GatewayConfig.auth_algorithms
                          (GatewayConfig.auth_issuer (env w))
                          (GatewayConfig.auth_audience (env w))) with
               | Ok c => Ok c
               | Thrown m => Thrown (Js.or_default (Some m) "Invalid token")
               end
           | None => Thrown "Unable to retrieve signing key"
           end
       | _ => Thrown "Invalid token format"
       end
   end, s).
Proof.
  unfold verifyToken, try_catch.
  destruct (decode token) as [d|]; [|reflexivity].
  destruct (Jwt.kid (Jwt.hdr d)) as [[|a k']|]; [reflexivity| |reflexivity].
  cbn [Js.truthy_string]. unfold bind, ask, getSigningKey, try_catch.
  destruct (jwksClient_getSigningKey w (String a k')); [|reflexivity].
  destruct (Jwt.verify _ _ _ _ _ _); reflexivity.
Qed.


(** X16. A token that the gateway's [verifyToken] accepts has passed
    every check: it decodes, its header names a non-empty key id for
    which the JWKS client has a signing key, its RS256 signature
    verifies under that key, its algorithm is RS256, its expiry, when
    it has one, lies ahead, and its audience and issuer are those of
    the configuration. The result is its payload, and the state of
    the gateway is untouched. *)
Theorem gateway_verifyToken_sound token w s c s1 :
  verifyToken decode rs256 token w s = (Ok c, s1) ->
  s1 = s /\
  exists d k signingKey,
    decode token = Some d /\ Jwt.payload d = c /\
    Jwt.kid (Jwt.hdr d) = Some k /\ Js.truthy_string k = true /\
    jwksClient_getSigningKey w k = Some signingKey /\
    rs256 signingKey token = true /\
    Jwt.alg (Jwt.hdr d) = "RS256"%string /\
    (forall e, Jwt.exp c = Some e -> now w / 1000 < e) /\
    Jwt.aud c = Some (Js.or_default (env w !! "TOKEN_AUDIENCE") "portfolio-client") /\
    Jwt.iss c = Some (Js.or_default (env w !! "TOKEN_ISSUER") "portfolio-api").
Proof.
  rewrite gateway_verifyToken_eq.
  destruct (decode token) as [d|] eqn:Ed; [|discriminate].
  destruct (Jwt.kid (Jwt.hdr d)) as [[|a k']|] eqn:Ek; [discriminate| |discriminate].
  destruct (jwksClient_getSigningKey w (String a k')) as [key|] eqn:Eg; [|discriminate].
  destruct (Jwt.verify _ _ _ _ _ _) as [c'|m] eqn:Ev; [|discriminate].
  intros [= <- <-]. split; [reflexivity|].
  destruct (jwt_verify_ok_inv Ev) as (d' & Hd' & Hp & Ha & Hs & He & Haud & Hiss).
  rewrite Ed in Hd'. injection Hd' as <-.
  exists d, (String a k'), key. repeat split; try assumption.
  cbn in Ha. rewrite orb_false_r in Ha. apply String.eqb_eq in Ha. exact Ha.
Qed.



End GatewayAuthMore.

Lemma gateway_verifyToken_sound_witness :
  Samples.empty_state = Samples.empty_state /\
  exists d k signingKey,
    Samples.decode "good.token" = Some d /\ Jwt.payload d = Samples.claims1 /\
    Jwt.kid (Jwt.hdr d) = Some k /\ Js.truthy_string k = true /\
    Gateway.jwksClient_getSigningKey Samples.gw_world k = Some signingKey /\
    Samples.rs256 signingKey "good.token" = true /\
    Jwt.alg (Jwt.hdr d) = "RS256"%string /\
    (forall e, Jwt.exp Samples.claims1 = Some e ->
               (Gateway.now Samples.gw_world / 1000 < e)%Z) /\
    Jwt.aud Samples.claims1 =
      Some (Js.or_default (Gateway.env Samples.gw_world !! "TOKEN_AUDIENCE")
                          "portfolio-client") /\
    Jwt.iss Samples.claims1 =
      Some (Js.or_default (Gateway.env Samples.gw_world !! "TOKEN_ISSUER")
                          "portfolio-api").
Proof.
  apply (@gateway_verifyToken_sound Samples.decode Samples.rs256 "good.token"
           Samples.gw_world Samples.empty_state Samples.claims1 Samples.empty_state).
  vm_compute. reflexivity.
Defined.


(** ** The limiter of a route *)

Lemma includes_app sub : forall a b, Js.includes sub (a ++ sub ++ b) = true.
Proof.
  induction a as [|c a IH]; intros b.
  - rewrite string_app_nil. destruct (sub ++ b)%string eqn:E.
    + cbn [Js.includes]. rewrite <- E, startsWith_app. reflexivity.
    + cbn [Js.includes]. rewrite <- E, startsWith_app. reflexivity.
  - rewrite string_app_cons. cbn [Js.includes]. rewrite IH. apply orb_true_r.
Qed.

(** X18. How the route loop picks the limiter. The strict limiter is
    only ever given to a [POST] route, and to every [POST] route whose
    full path has [/login] or [/register] anywhere in it; a route that
    requires authentication never gets the public limiter; a route of
    any other method gets the public limiter when it is open and the
    standard one when it requires authentication. The method is
    compared as it is written. *)
Theorem limiter_for_selection (r : Gateway.route) (fullPath : string) :
  (Gateway.limiter_for r fullPath = Gateway.strictLimiter ->
   Gateway.method r = "POST"%string) /\
  (Gateway.auth r = true -> Gateway.limiter_for r fullPath <> Gateway.publicLimiter) /\
  (Gateway.method r <> "POST"%string ->
   Gateway.limiter_for r fullPath =
   if Gateway.auth r then Gateway.standardLimiter else Gateway.publicLimiter) /\
  (Gateway.method r = "POST"%string ->
   forall a b,
     Gateway.limiter_for r (a ++ "/login" ++ b) = Gateway.strictLimiter /\
     Gateway.limiter_for r (a ++ "/register" ++ b) = Gateway.strictLimiter).
Proof.
  unfold Gateway.limiter_for. repeat split.
  - destruct (String.eqb_spec (Gateway.method r) "POST") as [E|E]; [auto|].
    cbn [andb]. destruct (Gateway.auth r); discriminate.
  - intros ->. destruct (_ && _)%bool; discriminate.
  - intros Hm. apply String.eqb_neq in Hm. rewrite Hm. cbn [andb].
    destruct (Gateway.auth r); reflexivity.
  - rewrite H, (includes_app "/login"). reflexivity.
  - rewrite H, (includes_app "/register"), orb_true_r. reflexivity.
Qed.

(** X19. On the route table of [routes.js], under every environment:
    the strict limiter guards exactly the two routes [/login] and
    [/register] of the auth service; every other route has the
    standard limiter when it requires authentication and the public
    one when it does not, the other open [POST] routes (password
    reset, token refresh, contact messages, tracking) included. *)
Theorem strict_limiter_routes (e : gmap string string) serviceKey svc r :
  In (serviceKey, svc) (Gateway.routes e) ->
  In r (Gateway.routes_of svc) ->
  let l := Gateway.limiter_for r (Gateway.prefix svc ++ Gateway.path r) in
  (l = Gateway.strictLimiter <->
   serviceKey = "auth"%string /\
   (Gateway.path r = "/login"%string \/ Gateway.path r = "/register"%string)) /\
  (l <> Gateway.strictLimiter ->
   l = if Gateway.auth r then Gateway.standardLimiter else Gateway.publicLimiter).
Proof.
  intros Hs Hr.
  unfold Gateway.routes in Hs. cbn [In] in Hs.
  repeat destruct Hs as [Hs|Hs]; try contradiction;
    injection Hs as <- <-; cbn [Gateway.routes_of In] in Hr;
    repeat destruct Hr as [Hr|Hr]; try contradiction; subst r;
    (split; [split; [intros H; try discriminate H; auto
                    | intros [H1 [H2|H2]]; try discriminate H1; try discriminate H2;
                      reflexivity]
            | intros H; try reflexivity; exfalso; apply H; reflexivity]).
Qed.

Lemma strict_limiter_routes_witness :
  let svc := Gateway.Service "/api/auth" "http://auth-service:3001"
               [ Gateway.Route "/login" "POST" false;
                 Gateway.Route "/register" "POST" false;
                 Gateway.Route "/refresh-token" "POST" false;
                 Gateway.Route "/logout" "POST" true;
                 Gateway.Route "/verify-email/:token" "GET" false;
                 Gateway.Route "/forgot-password" "POST" false;
                 Gateway.Route "/reset-password/:token" "POST" false ] in
  let r := Gateway.Route "/forgot-password" "POST" false in
  let l := Gateway.limiter_for r (Gateway.prefix svc ++ Gateway.path r) in
  (l = Gateway.strictLimiter <->
   "auth"%string = "auth"%string /\
   (Gateway.path r = "/login"%string \/ Gateway.path r = "/register"%string)) /\
  (l <> Gateway.strictLimiter ->
   l = if Gateway.auth r then Gateway.standardLimiter else Gateway.publicLimiter).
Proof.
  apply (@strict_limiter_routes ∅ "auth"
           (Gateway.Service "/api/auth" "http://auth-service:3001"
              [ Gateway.Route "/login" "POST" false;
                Gateway.Route "/register" "POST" false;
                Gateway.Route "/refresh-token" "POST" false;
                Gateway.Route "/logout" "POST" true;
                Gateway.Route "/verify-email/:token" "GET" false;
                Gateway.Route "/forgot-password" "POST" false;
                Gateway.Route "/reset-password/:token" "POST" false ])
           (Gateway.Route "/forgot-password" "POST" false)).
  - left. reflexivity.
  - cbn [Gateway.routes_of In]. auto 10.
Defined.

(** X20. What the limiters answer does not depend on the
    configuration they are created from: the strict limiter allows 20
    requests an hour and its handler says to try again after 60
    minutes, the public limiter allows 300 requests a quarter of an
    hour and says 15 minutes. The [message] option, which the strict
    limiter sets, has no part in the response: the handler that
    [createRateLimiter] installs answers in its place. *)
Theorem limiters_as_created (cfg : GatewayConfig.rateLimiterOptions) :
  let strict := RateLimiter.strictLimiter cfg in
  let public := RateLimiter.publicLimiter cfg in
  (GatewayConfig.windowMs strict = 3600000 /\ GatewayConfig.max strict = 20 /\
   RateLimiter.handler strict =
     Http.Response 429
       (Http.ErrorBody "Too many requests" "Please try again after 60 minutes"))%Z /\
  (GatewayConfig.windowMs public = 900000 /\ GatewayConfig.max public = 300 /\
   RateLimiter.handler public =
     Http.Response 429
       (Http.ErrorBody "Too many requests" "Please try again after 15 minutes"))%Z /\
  (forall o m,
     RateLimiter.handler
       (RateLimiter.createRateLimiter cfg
          (RateLimiter.Overrides (RateLimiter.o_windowMs o) (RateLimiter.o_max o) m)) =
     RateLimiter.handler (RateLimiter.createRateLimiter cfg o)).
Proof.
  intros strict public. repeat split; vm_compute; reflexivity.
Qed.

(** ** What a registered chain sends to a backend *)

Section ChainFacts.
Import Gateway.
Variable decode : string -> option Jwt.decoded.
Variable rs256 : string -> string -> bool.
Local Open Scope Z_scope.


(** A required [authenticate] passes on verified requests only. *)
Lemma gateway_authenticate_required_next (req : Req.request) w s r :
  authenticate decode rs256 true req w s = (Ok (Req.Next r), s) ->
  exists token c,
    Req.extractToken GatewayConfig.auth_tokenCookieName req = Some token /\
    Js.truthy_string token = true /\
    verifyToken decode rs256 token w s = (Ok c, s) /\
    r = Req.set_user (Some (identity_of c)) req.
Proof.
  intros H.
  destruct (Req.extractToken GatewayConfig.auth_tokenCookieName req) as [token|] eqn:Et.
  - destruct (Js.truthy_string token) eqn:Ett.
    + pose proof (gateway_verifyToken_state decode rs256 token w s) as Hs.
      destruct (verifyToken decode rs256 token w s) as [[c|m] s1] eqn:Ev;
        cbn [snd] in Hs; subst s1.
      * rewrite (gateway_authenticate_verified true Et Ett Ev) in H.
        injection H as <-. exists token, c. auto.
      * rewrite (gateway_authenticate_rejected true Et Ett Ev) in H. discriminate.
    + unfold authenticate, try_catch in H. rewrite Et in H.
      cbn [Js.truthy] in H. rewrite Ett in H. discriminate.
  - unfold authenticate, try_catch in H. rewrite Et in H. discriminate.
Qed.

(** A limiter passes the request on as it is or answers itself, and
    only touches its store. *)
Lemma limit_cases l (req : Req.request) w s :
  exists a s',
    limit l req w s = (Ok a, s') /\ forwarded s' = forwarded s /\
    (a = Req.Next req \/ a = Req.Respond (RateLimiter.handler (limiter_options l))).
Proof.
  unfold limit, RateLimiter.rateLimit.
  destruct l;
    match goal with
    | |- context [ (GatewayConfig.max ?o <? ?h) ] => destruct (GatewayConfig.max o <? h)
    end; eexists _, _; (split; [reflexivity|]); split; auto.
Qed.


(** X22. The chain of a route that requires authentication sends a
    request to the backend only for a verified token: whenever the
    chain has forwarded something, the request carried a non-empty
    token that [verifyToken] accepts, and the one request sent carries
    the [sub] claim of that token in [X-User-ID] and its roles in
    [X-User-Roles]. *)
Theorem protected_route_forwards_only_verified
        serviceKey svc r (req : Req.request) w s a s' :
  auth r = true ->
  run_chain decode rs256 (chain_of serviceKey svc r) req w s = (Ok a, s') ->
  forwarded s' <> forwarded s ->
  exists token c out,
    Req.extractToken GatewayConfig.auth_tokenCookieName req = Some token /\
    Js.truthy_string token = true /\
    verifyToken decode rs256 token w s = (Ok c, s) /\
    forwarded s' = forwarded s ++ [out] /\
    ob_target out = target svc /\
    header "X-User-ID" (ob_headers out) = Some (Jwt.sub c) /\
    header "X-User-Roles" (ob_headers out) =
      Some (Json.stringify (Js.or_empty (Jwt.roles c))).
Proof.
  intros Hr. unfold chain_of. rewrite Hr.
  destruct (limit_cases (limiter_for r (prefix svc ++ path r)) req w s)
    as (a0 & s0 & Hl & Hf & Ha).
  rewrite run_chain_cons. cbn [run]. rewrite Hl.
  destruct Ha as [-> | ->].
  2:{ intros [= <- <-] Hne. contradiction. }
  destruct (gateway_authenticate_total decode rs256 true req w s0) as [a1 Hauth].
  destruct a1 as [req1|res].
  - rewrite (run_chain_after_authenticate serviceKey (target svc) Hauth), proxy_step.
    intros [= <- <-] _.
    destruct (gateway_authenticate_required_next Hauth)
      as (token & c & Ht & Htt & Hv & ->).
    exists token, c. eexists.
    split; [exact Ht|]. split; [exact Htt|]. split.
    { rewrite (gateway_verifyToken_any_state decode rs256 token w s0 s).
      rewrite Hv. reflexivity. }
    split; [cbn [forwarded]; rewrite Hf; reflexivity|].
    split; [reflexivity|]. split; reflexivity.
  - rewrite run_chain_cons. cbn [run]. rewrite Hauth.
    intros [= <- <-] Hne. contradiction.
Qed.

End ChainFacts.

Lemma protected_route_forwards_only_verified_witness :
  exists token c out,
    Req.extractToken GatewayConfig.auth_tokenCookieName Samples.request1 = Some token /\
    Js.truthy_string token = true /\
    Gateway.verifyToken Samples.decode Samples.rs256 token Samples.gw_world
      Samples.empty_state = (Ok c, Samples.empty_state) /\
    Gateway.forwarded
      (snd (Gateway.run_chain Samples.decode Samples.rs256
              (Gateway.chain_of "analytics"
                 (Gateway.Service "/api/analytics" "http://analytics-service:3006" [])
                 (Gateway.Route "/metrics" "GET" true))
              Samples.request1 Samples.gw_world Samples.empty_state)) =
      Gateway.forwarded Samples.empty_state ++ [out] /\
    Gateway.ob_target out =
      Gateway.target (Gateway.Service "/api/analytics" "http://analytics-service:3006" []) /\
    Gateway.header "X-User-ID" (Gateway.ob_headers out) = Some (Jwt.sub c) /\
    Gateway.header "X-User-Roles" (Gateway.ob_headers out) =
      Some (Json.stringify (Js.or_empty (Jwt.roles c))).
Proof.
  apply (@protected_route_forwards_only_verified Samples.decode Samples.rs256
           "analytics"
           (Gateway.Service "/api/analytics" "http://analytics-service:3006" [])
           (Gateway.Route "/metrics" "GET" true)
           Samples.request1 Samples.gw_world Samples.empty_state
           (Req.Respond (Http.Response 201 (Http.UpstreamBody "created")))).
  - reflexivity.
  - vm_compute. reflexivity.
  - vm_compute. discriminate.
Defined.

(** ** Routing: what the order of the layers decides *)

Lemma lower_ascii_idem c : Js.lower_ascii (Js.lower_ascii c) = Js.lower_ascii c.
Proof. destruct c as [[] [] [] [] [] [] [] []]; reflexivity. Qed.

Lemma toLowerCase_idem s : Js.toLowerCase (Js.toLowerCase s) = Js.toLowerCase s.
Proof.
  induction s as [|c s IH]; [reflexivity|].
  cbn [Js.toLowerCase]. rewrite lower_ascii_idem, IH. reflexivity.
Qed.

Lemma segment_matches_lower pat seg :
  Router.segment_matches pat seg = Router.segment_matches pat (Js.toLowerCase seg).
Proof.
  unfold Router.segment_matches, Js.eq_nocase. rewrite toLowerCase_idem.
  destruct seg; reflexivity.
Qed.

Lemma segments_match_lower pats : forall segs,
  Router.segments_match pats segs =
  Router.segments_match pats (map Js.toLowerCase segs).
Proof.
  induction pats as [|p pats IH]; intros [|x segs]; try reflexivity.
  cbn [Router.segments_match map]. rewrite <- segment_matches_lower, <- IH. reflexivity.
Qed.

(** A pattern without parameters fixes the segments of the paths it
    matches, up to case. *)
Lemma literal_pattern_segments pats : forall segs,
  forallb (fun p => negb (Js.startsWith ":" p)) pats = true ->
  Router.segments_match pats segs = true ->
  map Js.toLowerCase segs = map Js.toLowerCase pats.
Proof.
  induction pats as [|p pats IH]; intros [|x segs] Hl Hm; try discriminate; [reflexivity|].
  cbn [forallb] in Hl. apply andb_true_iff in Hl as [Hp Hl].
  cbn [Router.segments_match] in Hm. apply andb_true_iff in Hm as [Hx Hm].
  unfold Router.segment_matches in Hx. apply negb_true_iff in Hp. rewrite Hp in Hx.
  apply String.eqb_eq in Hx. cbn [map]. rewrite Hx, (IH _ Hl Hm). reflexivity.
Qed.

(** A request that matches a literal, lower-case pattern matches the
    same patterns as that pattern read as a path. *)
Lemma path_matches_as_literal lit pat p :
  forallb (fun x => negb (Js.startsWith ":" x)) (Router.segments lit) = true ->
  map Js.toLowerCase (Router.segments lit) = Router.segments lit ->
  Router.path_matches lit p = true ->
  Router.path_matches pat p = Router.path_matches pat lit.
Proof.
  intros Hl Hlow Hm. unfold Router.path_matches in *.
  rewrite segments_match_lower, (literal_pattern_segments Hl Hm), Hlow. reflexivity.
Qed.

Ltac eval_path_matches lit :=
  repeat match goal with
         | |- context [Router.path_matches ?pat lit] =>
             let v := eval vm_compute in (Router.path_matches pat lit) in
             change (Router.path_matches pat lit) with v
         end.

(** X23. [GET /api/profiles/me] never reaches the route registered
    for it. The route table lists [/:id] before [/me], and a request
    for [/api/profiles/me] matches the pattern [/api/profiles/:id]:
    the first rule it matches is the open route, whose chain runs the
    public limiter and the optional [authenticate(false)], not the
    chain with [authenticate(true)] registered for [/me]. *)
Theorem profile_me_is_shadowed (e : gmap string string) (req : Req.request) :
  Router.verb_matches "get" (Req.method req) = true ->
  Router.path_matches "/api/profiles/me" (Req.path req) = true ->
  let tgt := Js.or_default (e !! "PROFILE_SERVICE_URL") "http://profile-service:3002" in
  Router.matchRoute (Gateway.routes e) req =
    Some (Gateway.OnMethod "get" "/api/profiles/:id"
            [ Gateway.Limit Gateway.publicLimiter;
              Gateway.Authenticate false;
              Gateway.TargetInfo "profile" tgt;
              Gateway.Proxy tgt ]) /\
  In (Gateway.OnMethod "get" "/api/profiles/me"
        [ Gateway.Limit Gateway.standardLimiter;
          Gateway.Authenticate true;
          Gateway.TargetInfo "profile" tgt;
          Gateway.Proxy tgt ])
     (Gateway.route_layers (Gateway.routes e)).
Proof.
  intros Hv Hp tgt. split.
  - unfold Router.matchRoute, Gateway.route_layers, Gateway.routes.
    cbn [flat_map map Datatypes.app Gateway.routes_of Js.find Router.layer_matches
         Gateway.prefix Gateway.path Gateway.method].
    rewrite !(fun pat => @path_matches_as_literal "/api/profiles/me" pat (Req.path req)
                           eq_refl eq_refl Hp).
    eval_path_matches "/api/profiles/me"%string.
    rewrite !andb_false_r.
    change (Js.toLowerCase "GET") with "get"%string. rewrite Hv.
    reflexivity.
  - unfold Gateway.route_layers, Gateway.routes.
    cbn [flat_map map Datatypes.app Gateway.routes_of].
    do 9 right. left. reflexivity.
Qed.

Lemma profile_me_is_shadowed_witness :
  let tgt := Js.or_default ((∅ : gmap string string) !! "PROFILE_SERVICE_URL")
                           "http://profile-service:3002" in
  Router.matchRoute (Gateway.routes ∅) Cases.request_me =
    Some (Gateway.OnMethod "get" "/api/profiles/:id"
            [ Gateway.Limit Gateway.publicLimiter;
              Gateway.Authenticate false;
              Gateway.TargetInfo "profile" tgt;
              Gateway.Proxy tgt ]) /\
  In (Gateway.OnMethod "get" "/api/profiles/me"
        [ Gateway.Limit Gateway.standardLimiter;
          Gateway.Authenticate true;
          Gateway.TargetInfo "profile" tgt;
          Gateway.Proxy tgt ])
     (Gateway.route_layers (Gateway.routes ∅)).
Proof.
  apply (@profile_me_is_shadowed ∅ Cases.request_me).
  - reflexivity.
  - reflexivity.
Defined.

Section ApplicationFacts.
Import Gateway Router.
Variable decode : string -> option Jwt.decoded.
Variable rs256 : string -> string -> bool.


End ApplicationFacts.

(** ** The logger *)

Lemma redact_lookup (m : gmap string Logger.value) g f :
  Logger.redact m g !! f =
  match m !! f with
  | Some v => Some (if (String.eqb f g && Logger.truthy v)%bool
                    then Logger.VStr "[REDACTED]" else v)
  | None => None
  end.
Proof.
  unfold Logger.redact. destruct (String.eqb_spec f g) as [->|Hne].
  - destruct (m !! g) as [v|] eqn:E; [|rewrite E; reflexivity].
    cbn [andb]. destruct (Logger.truthy v).
    + rewrite lookup_insert_eq. reflexivity.
    + rewrite E. reflexivity.
  - cbn [andb].
    destruct (m !! g) as [v|] eqn:E.
    + destruct (Logger.truthy v).
      * rewrite lookup_insert_ne by congruence. destruct (m !! f); reflexivity.
      * destruct (m !! f); reflexivity.
    + destruct (m !! f); reflexivity.
Qed.

Lemma foldl_redact_lookup fields : forall (m : gmap string Logger.value) f,
  foldl Logger.redact m fields !! f =
  match m !! f with
  | Some v => Some (if (existsb (String.eqb f) fields && Logger.truthy v)%bool
                    then Logger.VStr "[REDACTED]" else v)
  | None => None
  end.
Proof.
  induction fields as [|g fields IH]; intros m f.
  - cbn [foldl existsb andb]. destruct (m !! f); reflexivity.
  - cbn [foldl existsb]. rewrite IH, redact_lookup.
    destruct (m !! f) as [v|]; [|reflexivity]. f_equal.
    destruct (String.eqb f g), (Logger.truthy v) eqn:Et; cbn [andb orb];
      rewrite ?Et, ?andb_true_r, ?andb_false_r; try reflexivity.
    destruct (existsb _ _); reflexivity.
Qed.

Lemma sensitive_existsb f :
  existsb (String.eqb f) Logger.sensitiveFields = bool_decide (f ∈ Logger.sensitiveFields).
Proof.
  destruct (existsb (String.eqb f) Logger.sensitiveFields) eqn:E; symmetry.
  - apply bool_decide_eq_true. apply existsb_exists in E as (x & Hin & Hx).
    apply String.eqb_eq in Hx. subst x. apply list_elem_of_In. exact Hin.
  - apply bool_decide_eq_false. intros Hin. apply list_elem_of_In in Hin.
    assert (existsb (String.eqb f) Logger.sensitiveFields = true); [|congruence].
    apply existsb_exists. exists f. split; [exact Hin|apply String.eqb_refl].
Qed.

(** X25. What the logger writes of a request body, field by field:
    the value of a sensitive field is replaced by [[REDACTED]] when it
    is truthy and written as it is when it is falsy (an empty string,
    [0], [false], [null]); every other field is written as it is, a
    field whose name differs from a sensitive one only by case and a
    nested object that holds a password included; no field is added
    or dropped. *)
Theorem sanitize_field_by_field (body : gmap string Logger.value) (f : string) :
  Logger.sanitize body !! f =
    match body !! f with
    | Some v =>
        Some (if (bool_decide (f ∈ Logger.sensitiveFields) && Logger.truthy v)%bool
              then Logger.VStr "[REDACTED]" else v)
    | None => None
    end /\
  (f ∉ Logger.sensitiveFields -> Logger.sanitize body !! f = body !! f) /\
  (forall text, body !! f = Some (Logger.VNested text) ->
     Logger.sanitize body !! f =
       Some (if bool_decide (f ∈ Logger.sensitiveFields)
             then Logger.VStr "[REDACTED]" else Logger.VNested text)) /\
  Logger.sanitize body !! "Password"%string = body !! "Password"%string.
Proof.
  assert (E : forall g,
    Logger.sanitize body !! g =
    match body !! g with
    | Some v =>
        Some (if (bool_decide (g ∈ Logger.sensitiveFields) && Logger.truthy v)%bool
              then Logger.VStr "[REDACTED]" else v)
    | None => None
    end).
  { intros g. unfold Logger.sanitize.
    rewrite foldl_redact_lookup, sensitive_existsb. reflexivity. }
  split; [apply E|]. split; [|split].
  - intros Hn. rewrite E. rewrite (bool_decide_eq_false_2 _ Hn).
    destruct (body !! f); reflexivity.
  - intros text Ht. rewrite E, Ht. cbn [Logger.truthy]. rewrite andb_true_r.
    reflexivity.
  - rewrite E. destruct (body !! "Password"%string); reflexivity.
Qed.

(** X26. Sanitizing is idempotent, and after it no sensitive field
    holds a truthy value other than [[REDACTED]]. *)
Theorem sanitize_idempotent (body : gmap string Logger.value) :
  Logger.sanitize (Logger.sanitize body) = Logger.sanitize body /\
  (forall f v,
     f ∈ Logger.sensitiveFields ->
     Logger.sanitize body !! f = Some v ->
     v = Logger.VStr "[REDACTED]" \/ Logger.truthy v = false) /\
  Logger.body_token (Some (Logger.sanitize body)) = Logger.body_token (Some body).
Proof.
  assert (E : forall (b : gmap string Logger.value) g,
    Logger.sanitize b !! g =
    match b !! g with
    | Some v =>
        Some (if (existsb (String.eqb g) Logger.sensitiveFields && Logger.truthy v)%bool
              then Logger.VStr "[REDACTED]" else v)
    | None => None
    end).
  { intros b g. unfold Logger.sanitize. apply foldl_redact_lookup. }
  assert (I : Logger.sanitize (Logger.sanitize body) = Logger.sanitize body).
  { apply map_eq. intros g. rewrite (E (Logger.sanitize body)), E.
    destruct (body !! g) as [v|]; [|reflexivity]. f_equal.
    destruct (existsb _ _), (Logger.truthy v) eqn:Et; cbn [andb Logger.truthy];
      rewrite ?Et; reflexivity. }
  split; [exact I|]. split.
  - intros f v Hin Hv. rewrite E, sensitive_existsb in Hv.
    rewrite (bool_decide_eq_true_2 _ Hin) in Hv.
    destruct (body !! f) as [v0|]; [|discriminate]. cbn [andb] in Hv.
    destruct (Logger.truthy v0) eqn:Et; injection Hv as <-; auto.
  - cbn [Logger.body_token]. rewrite I. reflexivity.
Qed.

Lemma header_last name k v : forall hs,
  Js.eq_nocase k name = true ->
  Gateway.header name (hs ++ [(k, v)]) = Some v.
Proof.
  intros hs Hk. induction hs as [|[k' v'] hs IH].
  - cbn [Datatypes.app Gateway.header]. rewrite Hk. reflexivity.
  - cbn [Datatypes.app Gateway.header]. rewrite IH. reflexivity.
Qed.

(** X27. The id of a request travels with it: the id that [requestId]
    gives a request is the client's own [x-request-id] when that is
    non-empty and the fresh identifier otherwise; the response carries
    it in [x-request-id], and so does every request the proxy sends
    on, whoever the user is. [requestId] changes nothing else on the
    request. *)
Theorem request_id_travels (x_request_id : option string) (uuid : string)
        (req : Req.request) :
  let req' := fst (Logger.requestId x_request_id uuid req) in
  let id := Js.or_default x_request_id uuid in
  Req.reqId req' = id /\
  snd (Logger.requestId x_request_id uuid req) = ("x-request-id"%string, id) /\
  (forall u, Gateway.header "x-request-id" (Gateway.onProxyReq (Req.set_user u req'))
             = Some id) /\
  (forall t, x_request_id = Some t -> Js.truthy_string t = true -> id = t) /\
  (Js.truthy x_request_id = false -> id = uuid).
Proof.
  intros req' id. split; [reflexivity|]. split; [reflexivity|]. split; [|split].
  - intros u. unfold Gateway.onProxyReq. apply header_last. reflexivity.
  - intros t -> Ht. unfold id. cbn [Js.or_default]. rewrite Ht. reflexivity.
  - intros Hf. unfold id. destruct x_request_id as [t|]; [|reflexivity].
    cbn [Js.truthy] in Hf. cbn [Js.or_default]. rewrite Hf. reflexivity.
Qed.

(** X28. The paths the logger is configured to skip are not the paths
    of the health check and of the metrics endpoint: every request
    that the [/health] or the [/metrics] layer matches is written to
    the log. *)
Theorem health_checks_are_logged (req : Req.request) :
  Router.layer_matches Router.health_layer req = true \/
  Router.layer_matches (Gateway.OnMethod "get" "/metrics" [Gateway.Metrics]) req = true ->
  Logger.skipped req = false.
Proof.
  intros H. unfold Logger.skipped, Logger.excludePaths, Js.arr_includes.
  cbn [existsb]. rewrite orb_false_r.
  cbn [Router.layer_matches Router.health_layer] in H.
  assert (Hp : Router.path_matches "/health" (Req.path req) = true \/
               Router.path_matches "/metrics" (Req.path req) = true).
  { destruct H as [H|H]; apply andb_true_iff in H as [_ H]; auto. }
  clear H.
  destruct (String.eqb_spec (Req.path req) "/api/health") as [E|_];
    [rewrite E in Hp; destruct Hp as [Hp|Hp]; vm_compute in Hp; discriminate|].
  destruct (String.eqb_spec (Req.path req) "/api/metrics") as [E|_];
    [rewrite E in Hp; destruct Hp as [Hp|Hp]; vm_compute in Hp; discriminate|].
  reflexivity.
Qed.

Lemma health_checks_are_logged_witness :
  Logger.skipped Samples.request_health = false.
Proof.
  apply (@health_checks_are_logged Samples.request_health).
  left. reflexivity.
Defined.

(** The sanitizer on the body of a login request. *)
Example sanitize_login_body :
  Logger.sanitize Cases.login_body !! "password"%string =
    Some (Logger.VStr "[REDACTED]") /\
  Logger.sanitize Cases.login_body !! "token"%string = Some (Logger.VStr "") /\
  Logger.sanitize Cases.login_body !! "Password"%string = Some (Logger.VStr "other") /\
  Logger.sanitize Cases.login_body !! "email"%string =
    Some (Logger.VStr "ada@example.org").
Proof. repeat split; vm_compute; reflexivity. Qed.
